(** * kidney-backend: model dispatch, comparison and local risk estimation

    A shallow embedding of the prediction back end:
    - [src/services/mlComparisonService.js]: [getBestModelPrediction]
      (best model first, then a cascade by descending accuracy) and
      [compareAllModels] (all models, settle-all, sorted report);
    - [server.js]: the [/:model/predict] route handler;
    - the later [server.js] revision with [handleModelPrediction],
      [generateMockPrediction] and [sendPredictionResponse].

    Conventions of the embedding.
    - JavaScript numbers are exact rationals ([Q]).  The source computes
      with IEEE-754 doubles; the facts proved below only compare decimal
      constants that lie far apart, and add small integers.
    - An object literal used as a table is an association list in source
      order, which is also the order of [Object.keys]/[Object.entries].
    - [await]-ed code is a function of the outside world (remote services,
      database) and of the trace of effects issued so far.  An exception
      keeps the trace: what was done before a [throw] stays done. *)

From Stdlib Require Import List String Ascii Bool ZArith QArith Qround Lia Lqa.
From Stdlib Require Import Sorting.Sorted Sorting.Permutation.
Import ListNotations.

Local Open Scope string_scope.
Local Open Scope Q_scope.
Local Open Scope list_scope.

(* ================================================================== *)
(** ** JavaScript primitives used by the sources *)

Module Js.

(** [x || d] on a possibly missing number: [undefined] and [0] are falsy. *)
Definition or_num (x : option Q) (d : Q) : Q :=
  match x with
  | Some q => if Qeq_bool q 0 then d else q
  | None => d
  end.

(** [x || d] on a possibly missing string: [undefined] and the empty
    string are falsy. *)
Definition or_str (x : option string) (d : string) : string :=
  match x with
  | Some EmptyString => d
  | Some s => s
  | None => d
  end.

(** [a > b] and [a < b] on numbers. *)
Definition gt (a b : Q) : bool := negb (Qle_bool a b).
Definition lt (a b : Q) : bool := negb (Qle_bool b a).

Definition min (a b : Q) : Q := if Qle_bool a b then a else b.
Definition max (a b : Q) : Q := if Qle_bool a b then b else a.

(** Property access [table[key]] on an object literal, for its own
    properties: the keys looked up are literals of the sources or
    identifiers they have validated, none of which names an inherited
    property. *)
Fixpoint get {A : Type} (table : list (string * A)) (key : string) : option A :=
  match table with
  | [] => None
  | (k, v) :: rest => if String.eqb k key then Some v else get rest key
  end.

Definition keys {A : Type} (table : list (string * A)) : list string :=
  map fst table.

(** [list.includes(x)] on an array of strings. *)
Definition includes (l : list string) (x : string) : bool :=
  existsb (String.eqb x) l.

(** [Array.prototype.sort(cmp)]: a stable sort; [cmp a b <= 0] keeps [a]
    before [b].  For a comparator that is a difference of keys every
    stable sort gives the same array; insertion is the simplest one. *)
Fixpoint insert {A : Type} (cmp : A -> A -> Q) (x : A) (l : list A) : list A :=
  match l with
  | [] => [x]
  | y :: rest =>
      if Qle_bool (cmp x y) 0 then x :: y :: rest
      else y :: insert cmp x rest
  end.

Definition sort {A : Type} (cmp : A -> A -> Q) (l : list A) : list A :=
  fold_right (insert cmp) [] l.

(** [toUpperCase]/[toLowerCase], on the ASCII letters (the identifiers
    they are applied to in the services are ASCII). *)
Definition upper_ascii (c : ascii) : ascii :=
  let n := nat_of_ascii c in
  if (97 <=? n)%nat && (n <=? 122)%nat then ascii_of_nat (n - 32) else c.

Definition lower_ascii (c : ascii) : ascii :=
  let n := nat_of_ascii c in
  if (65 <=? n)%nat && (n <=? 90)%nat then ascii_of_nat (n + 32) else c.

Fixpoint map_string (f : ascii -> ascii) (s : string) : string :=
  match s with
  | EmptyString => EmptyString
  | String c rest => String (f c) (map_string f rest)
  end.

Definition toUpperCase : string -> string := map_string upper_ascii.
Definition toLowerCase : string -> string := map_string lower_ascii.

(** [name.charAt(0).toUpperCase() + name.slice(1)] *)
Definition capitalize (name : string) : string :=
  match name with
  | EmptyString => EmptyString
  | String c rest => String (upper_ascii c) rest
  end.

(** [list.join(sep)] *)
Definition join (sep : string) (l : list string) : string :=
  String.concat sep l.

(** [x.toFixed(1)]: the decimal numeral with one fractional digit nearest
    to [x], the larger one on a tie.  The numeral is kept as its number
    of tenths. *)
Inductive Fixed1 := Tenths (n : Z).

Definition toFixed1 (x : Q) : Fixed1 :=
  if Qle_bool 0 x then Tenths (Qfloor (x * 10 + (1 # 2)))
  else Tenths (- Qfloor ((- x) * 10 + (1 # 2))).

(** [parseFloat] of such a numeral. *)
Definition parseFixed1 (f : Fixed1) : Q :=
  match f with Tenths n => n # 10 end.

End Js.

(* ================================================================== *)
(** ** Requests, the outside world and awaited computations *)

(** The clinical measurements read by the services, typed [Number] in the
    [PatientRecord] schema.  [None] is an absent property. *)
Record PatientData := {
  age : option Q;
  bp  : option Q;
  sc  : option Q;   (* serum creatinine *)
  bu  : option Q;   (* blood urea *)
  bgr : option Q;   (* blood glucose random *)
  sg  : option Q;   (* specific gravity *)
  al  : option Q;   (* albumin *)
  su  : option Q    (* sugar *)
}.

(** [response.data] of a remote model service: a JSON object whose three
    fields may each be missing. *)
Record Payload := {
  data_prediction  : option string;
  data_probability : option Q;
  data_confidence  : option Q
}.

(** The call [axios.post(url, body, config)].  [req_url] is [None] when the
    table lookup giving the URL is [undefined]; [req_timeout] is the
    [timeout] of the config in milliseconds, [None] when no config (or no
    timeout) is passed. *)
Record Request := {
  req_url     : option string;
  req_body    : PatientData;
  req_timeout : option Z
}.

(** Why a remote call rejected. *)
Inductive FailureKind := TimedOut | Transport | BadStatus.

Inductive Outcome :=
| Responded (data : Payload)
| Rejected (kind : FailureKind) (message : string).

(** The document handed to [new PatientRecord(...)].  The clock-valued
    [timestamp] is left out. *)
Record Document := {
  doc_patient     : option PatientData;
  doc_predictedBy : string;
  doc_prediction  : string;
  doc_probability : Q;
  doc_accuracy    : Q;
  doc_riskScore   : option Q
}.

Inductive SaveOutcome :=
| Saved (id : string)
| SaveFailed (message : string).

(** Everything outside the process.  The [n]-th remote call of a request
    (counting from 0) is answered by [remote n]. *)
Record World := {
  remote   : nat -> Request -> Outcome;
  database : Document -> SaveOutcome
}.

Inductive Event :=
| Call (r : Request)
| Save (d : Document)
| Log (line : string).

Inductive Error := MkError (message : string).

Definition error_message (e : Error) : string :=
  match e with MkError m => m end.

Inductive Result (A : Type) :=
| Return (a : A)
| Throw (e : Error).
Arguments Return {A} a.
Arguments Throw {A} e.

Definition Trace := list Event.

Definition Async (A : Type) : Type := World -> Trace -> Result A * Trace.

Definition ret {A} (a : A) : Async A := fun _ t => (Return a, t).

Definition throw {A} (e : Error) : Async A := fun _ t => (Throw e, t).

Definition bind {A B} (m : Async A) (k : A -> Async B) : Async B :=
  fun w t =>
    match m w t with
    | (Return a, t') => k a w t'
    | (Throw e, t') => (Throw e, t')
    end.

(** [try { m } catch (err) { handler err }] *)
Definition try_catch {A} (m : Async A) (handler : Error -> Async A) : Async A :=
  fun w t =>
    match m w t with
    | (Return a, t') => (Return a, t')
    | (Throw e, t') => handler e w t'
    end.

Declare Scope async_scope.
Delimit Scope async_scope with async.
Notation "x <- m ;; k" := (bind m (fun x => k))
  (at level 61, m at next level, right associativity) : async_scope.
Notation "m ;;; k" := (bind m (fun _ => k))
  (at level 61, right associativity) : async_scope.
Local Open Scope async_scope.

(** The remote calls of a trace, in the order they were issued. *)
Fixpoint calls (t : Trace) : list Request :=
  match t with
  | [] => []
  | Call r :: rest => r :: calls rest
  | _ :: rest => calls rest
  end.

Definition emit (e : Event) : Async unit := fun _ t => (Return tt, t ++ [e]).

Definition console_error (line : string) : Async unit := emit (Log line).
Definition console_log (line : string) : Async unit := emit (Log line).

(** [await axios.post(url, body, config)] *)
Definition axios_post (url : option string) (body : PatientData)
    (timeout : option Z) : Async Payload :=
  fun w t =>
    let r := {| req_url := url; req_body := body; req_timeout := timeout |} in
    match remote w (List.length (calls t)) r with
    | Responded d => (Return d, t ++ [Call r])
    | Rejected _ msg => (Throw (MkError msg), t ++ [Call r])
    end.

(** [await record.save()].  The [_id] of the document is handed over with
    the successful save, after which alone the handlers read it. *)
Definition record_save (d : Document) : Async string :=
  fun w t =>
    match database w d with
    | Saved id => (Return id, t ++ [Save d])
    | SaveFailed msg => (Throw (MkError msg), t ++ [Save d])
    end.

(** Run a handler from an empty trace. *)
Definition run {A} (m : Async A) (w : World) : Result A * Trace := m w [].

(* ================================================================== *)
(** ** src/services/mlComparisonService.js *)

Module MlComparisonService.

(** The module-level tables [ML_MODELS], [bestModel] and
    [modelPerformance]; they are never assigned after start-up. *)
Record Registry := {
  ML_MODELS        : list (string * string);
  bestModel        : string;
  modelPerformance : list (string * Q)
}.

Definition registry : Registry := {|
  ML_MODELS :=
    [ ("logistic",      "https://logistic-service-djty.onrender.com/predict");
      ("randomforest",  "https://randomforest-service.onrender.com/predict");
      ("xgboost",       "https://xgboost-service-ddal.onrender.com/predict");
      ("svm",           "https://svm-service.onrender.com/predict");
      ("neuralnetwork", "https://neuralnetwork-service.onrender.com/predict") ];
  bestModel := "xgboost";
  modelPerformance :=
    [ ("xgboost",       99 # 100);
      ("randomforest",  98 # 100);
      ("logistic",      95 # 100);
      ("svm",           94 # 100);
      ("neuralnetwork", 96 # 100) ]
|}.

(** The object returned by [getBestModelPrediction].  [modelAccuracy] is
    [modelPerformance[model]], which may be [undefined]; [fallback] is
    only set (to [true]) on the cascade path. *)
Record BestPrediction := {
  model         : string;
  prediction    : string;
  probability   : Q;
  confidence    : Q;
  modelAccuracy : option Q;
  fallback      : bool
}.

(** One slot of the comparison table. *)
Inductive Status :=
| success (prediction : string) (probability : Q)
| failed (error : string).

Record Entry := {
  entry_model    : string;
  entry_accuracy : Q;
  entry_status   : Status
}.

(** [Promise.allSettled] *)
Inductive Settled (A : Type) :=
| fulfilled (value : A)
| rejected (reason : Error).
Arguments fulfilled {A} value.
Arguments rejected {A} reason.

Definition settle {A} (p : Async A) : Async (Settled A) :=
  fun w t =>
    match p w t with
    | (Return a, t') => (Return (fulfilled a), t')
    | (Throw e, t') => (Return (rejected e), t')
    end.

Fixpoint allSettled {A} (promises : list (Async A)) : Async (list (Settled A)) :=
  match promises with
  | [] => ret []
  | p :: rest =>
      r <- settle p ;;
      rs <- allSettled rest ;;
      ret (r :: rs)
  end.

(** [settledResults.forEach(r => { if (r.status === 'fulfilled') results.push(r.value) })] *)
Fixpoint fulfilled_values {A} (l : list (Settled A)) : list A :=
  match l with
  | [] => []
  | fulfilled v :: rest => v :: fulfilled_values rest
  | rejected _ :: rest => fulfilled_values rest
  end.

Section Service.

Variable R : Registry.

(** [modelPerformance[name]] inside the comparator of the cascade; the
    names compared there are keys of the table itself. *)
Definition performance (name : string) : Q :=
  match Js.get (modelPerformance R) name with
  | Some q => q
  | None => 0
  end.

(** [Object.keys(modelPerformance).sort((a, b) => modelPerformance[b] - modelPerformance[a])] *)
Definition fallbackModels : list string :=
  Js.sort (fun a b => performance b - performance a)
          (Js.keys (modelPerformance R)).

Definition prediction_of (name : string) (data : Payload) (fb : bool)
  : BestPrediction :=
  {| model         := Js.toUpperCase name;
     prediction    := Js.or_str (data_prediction data) "Unknown";
     probability   := Js.or_num (data_probability data) 0;
     confidence    := Js.or_num (data_confidence data) 0;
     modelAccuracy := Js.get (modelPerformance R) name;
     fallback      := fb |}.

(** The body of the [for] loop for one model that is not [bestModel]:
    [Some] when the [try] block returns, [None] when the [catch] block
    has logged the failure and the loop goes on. *)
Definition attempt (patientData : PatientData) (name : string)
  : Async (option BestPrediction) :=
  try_catch
    (response <- axios_post (Js.get (ML_MODELS R) name) patientData None ;;
     ret (Some (prediction_of name response true)))
    (fun err =>
       console_error (name ++ " also failed: " ++ error_message err)%string ;;;
       ret None).

Fixpoint cascade (patientData : PatientData) (models : list string)
  : Async BestPrediction :=
  match models with
  | [] => throw (MkError "All model services unavailable")
  | name :: rest =>
      if String.eqb name (bestModel R) then cascade patientData rest
      else
        r <- attempt patientData name ;;
        match r with
        | Some p => ret p
        | None => cascade patientData rest
        end
  end.

Definition getBestModelPrediction (patientData : PatientData)
  : Async BestPrediction :=
  try_catch
    (response <- axios_post (Js.get (ML_MODELS R) (bestModel R)) patientData None ;;
     ret (prediction_of (bestModel R) response false))
    (fun _ =>
       console_error "Best model failed, trying alternatives..." ;;;
       cascade patientData fallbackModels).

(** The [async ([name, url]) => { try ... catch ... }] mapped over
    [Object.entries(ML_MODELS)]. *)
Definition query (patientData : PatientData) (entry : string * string)
  : Async Entry :=
  let (name, url) := entry in
  try_catch
    (res <- axios_post (Some url) patientData None ;;
     ret {| entry_model    := Js.capitalize name;
            entry_accuracy := Js.or_num (Js.get (modelPerformance R) name) 0;
            entry_status   :=
              success (Js.or_str (data_prediction res) "Unknown")
                      (Js.or_num (data_probability res) 0) |})
    (fun _ =>
       ret {| entry_model    := Js.capitalize name;
              entry_accuracy := Js.or_num (Js.get (modelPerformance R) name) 0;
              entry_status   := failed "Service down" |}).

(** [(a, b) => (b.accuracy || 0) - (a.accuracy || 0)] *)
Definition by_accuracy (a b : Entry) : Q :=
  Js.or_num (Some (entry_accuracy b)) 0 - Js.or_num (Some (entry_accuracy a)) 0.

Definition compareAllModels (patientData : PatientData)
  : Async (list Entry) :=
  settledResults <- allSettled (map (query patientData) (ML_MODELS R)) ;;
  ret (Js.sort by_accuracy (fulfilled_values settledResults)).

End Service.

End MlComparisonService.


(* ================================================================== *)
(** ** server.js: the [/:model/predict] route *)

(** [a || b] where [a] is a number and [b] the result of [toFixed(1)]. *)
Inductive Shown :=
| shown_number (q : Q)
| shown_fixed (f : Js.Fixed1).

Module Server.

Import MlComparisonService.

Definition validModels : list string :=
  ["xgboost"; "randomforest"; "svm"; "logistic"; "neuralnetwork"].

Definition modelServiceMap : list (string * string) :=
  [ ("logistic",      "https://logistic-service-djty.onrender.com/predict");
    ("randomforest",  "https://randomforest-service.onrender.com/predict");
    ("xgboost",       "https://xgboost-service-ddal.onrender.com/predict");
    ("svm",           "https://svm-service.onrender.com/predict");
    ("neuralnetwork", "https://neuralnetwork-service.onrender.com/predict") ].

Definition modelPerformance : list (string * Q) :=
  [ ("xgboost",       99 # 100);
    ("randomforest",  98 # 100);
    ("logistic",      95 # 100);
    ("svm",           94 # 100);
    ("neuralnetwork", 96 # 100) ].

(** The local [result] object. *)
Record PredictionResult := {
  prediction  : string;
  probability : Q;
  confidence  : Q
}.

(** The JSON body of a successful answer ([success: true]). *)
Record PredictionBody := {
  risk_score      : Q;
  result          : string;
  shown           : Shown;        (* confidence *)
  model           : string;
  accuracy        : Js.Fixed1;
  patientRecordId : string;
  recommendation  : string
}.

Inductive Body :=
| InvalidModel (message : string)                     (* success: false *)
| Predicted (b : PredictionBody)                      (* success: true  *)
| PredictionFailed (message error suggestion : string)  (* success: false *).

(** What [res.status(code).json(body)] sends; [res.json] sends status 200. *)
Record Response := {
  status : Z;
  body   : Body
}.

Definition invalid_model_message : string :=
  ("Invalid model. Choose from: " ++ Js.join ", " validModels)%string.

(** [result.confidence || riskScore.toFixed(1)] *)
Definition confidence_or_fixed (c riskScore : Q) : Shown :=
  if Qeq_bool c 0 then shown_fixed (Js.toFixed1 riskScore) else shown_number c.

(** [app.post('/:model/predict', async (req, res) => ...)] with
    [model = req.params.model] and [patientData = req.body]. *)
Definition predict (model : string) (patientData : PatientData) : Async Response :=
  try_catch
    (if negb (Js.includes validModels model) then
       ret {| status := 400; body := InvalidModel invalid_model_message |}
     else
       result <-
         match Js.get modelServiceMap model with
         | Some url =>
             serviceResponse <- axios_post (Some url) patientData None ;;
             ret {| prediction  := Js.or_str (data_prediction serviceResponse) "Unknown";
                    probability := Js.or_num (data_probability serviceResponse) 0;
                    confidence  := Js.or_num (data_confidence serviceResponse) 0 |}
         | None =>
             bestModelResult <- getBestModelPrediction registry patientData ;;
             ret {| prediction  := MlComparisonService.prediction bestModelResult;
                    probability := MlComparisonService.probability bestModelResult;
                    confidence  := MlComparisonService.probability bestModelResult * 100 |}
         end ;;
       let modelAccuracy := Js.or_num (Js.get modelPerformance model) (90 # 100) in
       let record :=
         {| doc_patient     := Some patientData;
            doc_predictedBy := Js.toUpperCase model;
            doc_prediction  := prediction result;
            doc_probability := probability result;
            doc_accuracy    := modelAccuracy;
            doc_riskScore   := None |} in
       id <- record_save record ;;
       let riskScore := probability result * 100 in
       let riskResult :=
         if String.eqb (prediction result) "CKD"
         then "HIGH RISK: CKD Detected" else "LOW RISK: No CKD" in
       ret {| status := 200;
              body := Predicted
                {| risk_score      := riskScore;
                   result          := riskResult;
                   shown           := confidence_or_fixed (confidence result) riskScore;
                   model           := model;
                   accuracy        := Js.toFixed1 (modelAccuracy * 100);
                   patientRecordId := id;
                   recommendation  :=
                     if String.eqb (prediction result) "CKD"
                     then "High risk detected. Consult nephrologist immediately."
                     else "Low risk. Continue annual checkups." |} |})
    (fun error =>
       console_error ("Error in " ++ model ++ "/predict: " ++ error_message error)%string ;;;
       ret {| status := 500;
              body := PredictionFailed "Prediction failed" (error_message error)
                        "Try using a different model or check your input data" |}).

End Server.


(* ================================================================== *)
(** ** server.js, revision with a local estimate and a guarded save

    [handleModelPrediction(model, patientData)],
    [generateMockPrediction(patientData, model)],
    [sendPredictionResponse(res, result)] and the routes built on them. *)

Module ServerRev.

Definition validModels : list string :=
  ["xgboost"; "randomforest"; "svm"; "logistic"; "neuralnetwork"].

Definition modelPerformance : list (string * Q) :=
  [ ("xgboost",       987 # 1000);
    ("randomforest",  962 # 1000);
    ("neuralnetwork", 958 # 1000);
    ("svm",           941 # 1000);
    ("logistic",      925 # 1000) ].

Definition modelServiceMap : list (string * string) :=
  [ ("logistic",      "https://logistic-service-djty.onrender.com/predict");
    ("randomforest",  "https://randomforest-service.onrender.com/predict");
    ("xgboost",       "https://xgboost-service-ddal.onrender.com/predict");
    ("svm",           "https://svm-service.onrender.com/predict");
    ("neuralnetwork", "https://neuralnetwork-service.onrender.com/predict") ].

Definition modelAdjustments : list (string * Q) :=
  [ ("xgboost",       2 # 100);
    ("randomforest",  1 # 100);
    ("neuralnetwork", 15 # 1000);
    ("svm",           0);
    ("logistic",      - (1 # 100)) ].

(** [predictionResult]: its [confidence] is a number on the remote path
    and the string of [toFixed(1)] on the local path. *)
Record PredictionResult := {
  prediction  : string;
  probability : Q;
  confidence  : Shown
}.

(** The value of [riskScore] after the eight threshold rules, before
    [Math.min(riskScore, 95)]. *)
Definition accumulatedRisk (patientData : PatientData) : Q :=
  let riskScore := 0 in
  let age := Js.or_num (age patientData) 50 in
  let bp  := Js.or_num (bp patientData) 120 in
  let sc  := Js.or_num (sc patientData) 1 in
  let bu  := Js.or_num (bu patientData) 30 in
  let bgr := Js.or_num (bgr patientData) 100 in
  let sg  := Js.or_num (sg patientData) (1020 # 1000) in
  let al  := Js.or_num (al patientData) 0 in
  let su  := Js.or_num (su patientData) 0 in
  let riskScore := if Js.gt age 60 then riskScore + 15 else riskScore in
  let riskScore := if Js.gt bp 140 then riskScore + 10 else riskScore in
  let riskScore := if Js.gt sc (13 # 10) then riskScore + 25 else riskScore in
  let riskScore := if Js.gt bu 40 then riskScore + 15 else riskScore in
  let riskScore := if Js.gt bgr 126 then riskScore + 10 else riskScore in
  let riskScore := if Js.lt sg (1010 # 1000) then riskScore + 10 else riskScore in
  let riskScore := if Js.gt al 2 then riskScore + 10 else riskScore in
  let riskScore := if Js.gt su 1 then riskScore + 5 else riskScore in
  riskScore.

(** [riskScore = Math.min(riskScore, 95)] *)
Definition cappedRisk (patientData : PatientData) : Q :=
  Js.min (accumulatedRisk patientData) 95.

(** [probability = (riskScore / 100) + (modelAdjustments[model] || 0)] *)
Definition offsetProbability (patientData : PatientData) (model : string) : Q :=
  cappedRisk patientData / 100 + Js.or_num (Js.get modelAdjustments model) 0.

(** [finalProbability = Math.max(0.05, Math.min(0.95, probability))] *)
Definition finalProbability (patientData : PatientData) (model : string) : Q :=
  Js.max (5 # 100) (Js.min (95 # 100) (offsetProbability patientData model)).

(** The object [generateMockPrediction] returns. *)
Definition mockPrediction (patientData : PatientData) (model : string)
  : PredictionResult :=
  let finalProbability := finalProbability patientData model in
  let hasCKD := Js.gt finalProbability (1 # 2) in
  {| prediction  := if hasCKD then "CKD" else "No CKD";
     probability := finalProbability;
     confidence  := shown_fixed (Js.toFixed1 (finalProbability * 100)) |}.

Definition generateMockPrediction (patientData : PatientData) (model : string)
  : Async PredictionResult :=
  console_log ("Generating mock prediction for " ++ model)%string ;;;
  ret (mockPrediction patientData model).

(** What [handleModelPrediction] returns. *)
Record Handled := {
  predictionResult : PredictionResult;
  modelAccuracy    : Q;
  model            : string
}.

Definition handleModelPrediction (model : string) (patientData : PatientData)
  : Async Handled :=
  console_log ("Processing prediction for model: " ++ model)%string ;;;
  let modelAccuracy := Js.or_num (Js.get modelPerformance model) (90 # 100) in
  predictionResult <-
    match Js.get modelServiceMap model with
    | Some url =>
        try_catch
          (console_log ("Calling external service: " ++ url)%string ;;;
           serviceResponse <- axios_post (Some url) patientData (Some 10000%Z) ;;
           console_log ("Service " ++ model ++ " responded successfully")%string ;;;
           ret {| prediction  := Js.or_str (data_prediction serviceResponse) "Unknown";
                  probability := Js.or_num (data_probability serviceResponse) (1 # 2);
                  confidence  :=
                    shown_number (Js.or_num (data_confidence serviceResponse) 0) |})
          (fun serviceError =>
             console_error ("External service " ++ model ++ " failed: "
                            ++ error_message serviceError)%string ;;;
             generateMockPrediction patientData model)
    | None => generateMockPrediction patientData model
    end ;;
  ret {| predictionResult := predictionResult;
         modelAccuracy    := modelAccuracy;
         model            := model |}.

(** The text [`${riskLevel}\nConfidence: ${confidence}%`], kept as its two
    interpolated parts. *)
Record ResultMessage := {
  riskLevel       : string;
  shownConfidence : Shown
}.

(** The JSON body sent by [sendPredictionResponse] ([success: true]); the
    clock-valued [timestamp] is left out.  [patientRecordId] is absent and
    [note] present on the path where the save failed. *)
Record PredictionBody := {
  risk_score       : Q;
  result           : ResultMessage;
  shown            : Q;            (* confidence: parseFloat(confidence) *)
  body_model       : string;
  model_display    : string;
  accuracy         : Js.Fixed1;
  patientRecordId  : option string;
  recommendation   : string;
  note             : option string
}.

Inductive Body :=
| InvalidModel (message received : string)      (* success: false *)
| Predicted (b : PredictionBody)                (* success: true  *)
| PredictionFailed (message error : string)     (* success: false *).

Record Response := {
  status : Z;
  body   : Body
}.

(** [predictionResult.confidence || riskScore.toFixed(1)] *)
Definition confidence_or_fixed (c : Shown) (riskScore : Q) : Shown :=
  match c with
  | shown_number q =>
      if Qeq_bool q 0 then shown_fixed (Js.toFixed1 riskScore) else shown_number q
  | shown_fixed f => shown_fixed f
  end.

(** [parseFloat(confidence)] *)
Definition parseFloat (c : Shown) : Q :=
  match c with
  | shown_number q => q
  | shown_fixed f => Js.parseFixed1 f
  end.

Definition sendPredictionResponse (h : Handled) : Async Response :=
  let predictionResult := predictionResult h in
  let modelAccuracy := modelAccuracy h in
  let model := model h in
  let riskScore := probability predictionResult * 100 in
  let hasCKD := Js.gt (probability predictionResult) (1 # 2) in
  let riskLevel :=
    if hasCKD then "HIGH RISK: CKD Detected" else "LOW RISK: No CKD" in
  let confidence := confidence_or_fixed (confidence predictionResult) riskScore in
  let resultMessage := {| riskLevel := riskLevel; shownConfidence := confidence |} in
  let answer (id note : option string) :=
    {| status := 200;
       body := Predicted
         {| risk_score      := riskScore;
            result          := resultMessage;
            shown           := parseFloat confidence;
            body_model      := model;
            model_display   := Js.capitalize model;
            accuracy        := Js.toFixed1 (modelAccuracy * 100);
            patientRecordId := id;
            recommendation  :=
              if hasCKD
              then "High risk detected. Consult nephrologist immediately."
              else "Low risk. Continue annual checkups.";
            note            := note |} |} in
  try_catch
    (let record :=
       {| doc_patient     := None;
          doc_predictedBy := Js.toUpperCase model;
          doc_prediction  := prediction predictionResult;
          doc_probability := probability predictionResult;
          doc_accuracy    := modelAccuracy;
          doc_riskScore   := Some riskScore |} in
     id <- record_save record ;;
     ret (answer (Some id) None))
    (fun dbError =>
       console_error ("Database error: " ++ error_message dbError)%string ;;;
       ret (answer None (Some "Prediction saved locally only"))).

(** The routes [/xgboost/predict], ..., [/neuralnetwork/predict]: [name] is
    the fixed identifier, [failure] the message of the route's own 500. *)
Definition fixed_route (name failure : string) (patientData : PatientData)
  : Async Response :=
  try_catch
    (result <- handleModelPrediction name patientData ;;
     sendPredictionResponse result)
    (fun error =>
       ret {| status := 500;
              body := PredictionFailed failure (error_message error) |}).

Definition invalid_model_message : string :=
  ("Invalid model. Choose from: " ++ Js.join ", " validModels)%string.

Section GenericRoute.

(** [String.prototype.toLowerCase], the full Unicode case mapping, taken as
    given. *)
Variable toLowerCase : string -> string.

(** [app.post('/:model/predict', ...)] with [param = req.params.model]. *)
Definition predict (param : string) (patientData : PatientData) : Async Response :=
  try_catch
    (let model := toLowerCase param in
     if negb (Js.includes validModels model) then
       ret {| status := 400;
              body := InvalidModel invalid_model_message model |}
     else
       result <- handleModelPrediction model patientData ;;
       sendPredictionResponse result)
    (fun error =>
       ret {| status := 500;
              body := PredictionFailed "Prediction failed" (error_message error) |}).

End GenericRoute.

End ServerRev.

(* ================================================================== *)
(** ** src/controllers/predictionController.js

    [predictCKD] is mounted on [/api/predict/single] and [compareModels] on
    [/api/predict/compare]; both call the service above. *)

Module Controller.

Import MlComparisonService.

(** [x.toFixed(2)], kept as its number of hundredths. *)
Inductive Fixed2 := Hundredths (n : Z).

Definition toFixed2 (x : Q) : Fixed2 :=
  if Qle_bool 0 x then Hundredths (Qfloor (x * 100 + (1 # 2)))
  else Hundredths (- Qfloor ((- x) * 100 + (1 # 2))).

(** The [data] object of a completed prediction.  [confidence] is the
    number printed before ["%"]; [shownAccuracy] is the numeral printed
    before ["%"] in [modelAccuracy], [None] standing for ["NaN"] (the
    accuracy was [undefined]). *)
Record Prediction := {
  riskLevel       : string;
  confidence      : Q;
  modelUsed       : string;
  shownAccuracy   : option Fixed2;
  recommendation  : string;
  patientRecordId : string
}.

Inductive Body :=
| Completed (message : string) (data : Prediction)          (* success: true  *)
| PredictionFailed (message error : string)                 (* success: false *)
| Compared (comparisonTable : list Entry) (bestModel : option Entry)
                                                            (* success: true  *)
| ComparisonFailed (error : string)                         (* success: false *).

Record Response := {
  status : Z;
  body   : Body
}.

(** [accuracyOfModel: result.modelAccuracy] in the document.  The value is
    [modelPerformance[name]] for the model that answered, a key of
    [modelPerformance] or [bestModel]; with the tables of the service it is
    always a number ([modelAccuracy_defined] below).  The document type
    has no unset accuracy: the branch for [undefined] is never taken. *)
Definition accuracyOfModel (result : BestPrediction) : Q :=
  match MlComparisonService.modelAccuracy result with
  | Some q => q
  | None => 0
  end.

(** [exports.predictCKD], with [patientData = req.body]. *)
Definition predictCKD (patientData : PatientData) : Async Response :=
  try_catch
    (result <- getBestModelPrediction registry patientData ;;
     let record :=
       {| doc_patient     := Some patientData;
          doc_predictedBy := model result;
          doc_prediction  := prediction result;
          doc_probability := probability result;
          doc_accuracy    := accuracyOfModel result;
          doc_riskScore   := None |} in
     id <- record_save record ;;
     ret {| status := 200;
            body := Completed "Early-stage CKD prediction completed"
              {| riskLevel       := prediction result;
                 confidence      := probability result;
                 modelUsed       := model result;
                 shownAccuracy   :=
                   option_map (fun a => toFixed2 (a * 100))
                              (MlComparisonService.modelAccuracy result);
                 recommendation  :=
                   if String.eqb (prediction result) "CKD"
                   then "High risk detected. Consult nephrologist immediately."
                   else "Low risk. Continue annual checkups.";
                 patientRecordId := id |} |})
    (fun error =>
       ret {| status := 500;
              body := PredictionFailed "Prediction failed" (error_message error) |}).

(** [exports.compareModels]: [comparison[0]] is [undefined] on an empty
    table. *)
Definition compareModels (R : Registry) (patientData : PatientData)
  : Async Response :=
  try_catch
    (comparison <- compareAllModels R patientData ;;
     ret {| status := 200;
            body := Compared comparison (nth_error comparison 0) |})
    (fun error =>
       ret {| status := 500; body := ComparisonFailed (error_message error) |}).

End Controller.

(* ================================================================== *)
(** ** server.js, revision with one handler per request

    [handleModelPrediction(model, req, res)] validates, predicts, saves and
    answers; [generateMockPrediction] counts the thresholds crossed. *)

Module ServerV2.

Definition validModels : list string :=
  ["xgboost"; "randomforest"; "svm"; "logistic"; "neuralnetwork"].

Definition modelPerformance : list (string * Q) :=
  [ ("xgboost",       987 # 1000);
    ("randomforest",  962 # 1000);
    ("neuralnetwork", 958 # 1000);
    ("svm",           941 # 1000);
    ("logistic",      925 # 1000) ].

Definition modelServiceMap : list (string * string) :=
  [ ("logistic",      "https://logistic-service-djty.onrender.com/predict");
    ("randomforest",  "https://randomforest-service.onrender.com/predict");
    ("xgboost",       "https://xgboost-service-ddal.onrender.com/predict");
    ("svm",           "https://svm-service.onrender.com/predict");
    ("neuralnetwork", "https://neuralnetwork-service.onrender.com/predict") ].

Definition modelAdjustments : list (string * Q) :=
  [ ("xgboost",       2 # 100);
    ("randomforest",  1 # 100);
    ("neuralnetwork", 15 # 1000);
    ("svm",           0);
    ("logistic",      - (1 # 100)) ].

Record PredictionResult := {
  prediction  : string;
  probability : Q;
  confidence  : Shown
}.

(** The value of [riskFactors] after the five threshold rules. *)
Definition riskFactors (patientData : PatientData) : Q :=
  let riskFactors := 0 in
  let age := Js.or_num (age patientData) 50 in
  let bp  := Js.or_num (bp patientData) 120 in
  let sc  := Js.or_num (sc patientData) 1 in
  let bu  := Js.or_num (bu patientData) 30 in
  let bgr := Js.or_num (bgr patientData) 100 in
  let riskFactors := if Js.gt age 60 then riskFactors + 1 else riskFactors in
  let riskFactors := if Js.gt bp 140 then riskFactors + 1 else riskFactors in
  let riskFactors := if Js.gt sc (13 # 10) then riskFactors + 1 else riskFactors in
  let riskFactors := if Js.gt bu 40 then riskFactors + 1 else riskFactors in
  let riskFactors := if Js.gt bgr 126 then riskFactors + 1 else riskFactors in
  riskFactors.

(** [finalProbability = Math.min(0.3 + riskFactors * 0.15, 0.95)
                        + (modelAdjustments[model] || 0)] *)
Definition finalProbability (patientData : PatientData) (model : string) : Q :=
  let baseProbability := 3 # 10 in
  let factorAdjustment := riskFactors patientData * (15 # 100) in
  let probability := Js.min (baseProbability + factorAdjustment) (95 # 100) in
  probability + Js.or_num (Js.get modelAdjustments model) 0.

(** The object [generateMockPrediction] returns. *)
Definition mockPrediction (patientData : PatientData) (model : string)
  : PredictionResult :=
  let finalProbability := finalProbability patientData model in
  {| prediction  := if Js.gt finalProbability (1 # 2) then "CKD" else "No CKD";
     probability := finalProbability;
     confidence  := shown_fixed (Js.toFixed1 (finalProbability * 100)) |}.

Definition generateMockPrediction (patientData : PatientData) (model : string)
  : Async PredictionResult :=
  console_log ("Generating mock prediction for " ++ model)%string ;;;
  ret (mockPrediction patientData model).

Record ResultMessage := {
  riskLevel       : string;
  shownConfidence : Shown
}.

(** The JSON body of a successful answer; the clock-valued [timestamp] is
    left out. *)
Record PredictionBody := {
  risk_score       : Q;
  result           : ResultMessage;
  shown            : Q;            (* confidence: parseFloat(confidence) *)
  body_model       : string;
  model_display    : string;
  accuracy         : Js.Fixed1;
  patientRecordId  : string;
  recommendation   : string
}.

Inductive Body :=
| InvalidModel (message received : string)                       (* success: false *)
| Predicted (b : PredictionBody)                                 (* success: true  *)
| PredictionFailed (message error model suggestion : string)     (* success: false *).

Record Response := {
  status : Z;
  body   : Body
}.

Definition invalid_model_message : string :=
  ("Invalid model. Choose from: " ++ Js.join ", " validModels)%string.

(** [predictionResult.confidence || riskScore.toFixed(1)] *)
Definition confidence_or_fixed (c : Shown) (riskScore : Q) : Shown :=
  match c with
  | shown_number q =>
      if Qeq_bool q 0 then shown_fixed (Js.toFixed1 riskScore) else shown_number q
  | shown_fixed f => shown_fixed f
  end.

(** [parseFloat(confidence)] *)
Definition parseFloat (c : Shown) : Q :=
  match c with
  | shown_number q => q
  | shown_fixed f => Js.parseFixed1 f
  end.

(** [handleModelPrediction(model, req, res)] with [patientData = req.body];
    every route of this revision is a call of it.  The second log line
    prints the keys of the body after its label; the keys are left out. *)
Definition handleModelPrediction (model : string) (patientData : PatientData)
  : Async Response :=
  try_catch
    (console_log ("Received prediction request for model: " ++ model)%string ;;;
     console_log "Patient data keys:" ;;;
     if negb (Js.includes validModels model) then
       ret {| status := 400; body := InvalidModel invalid_model_message model |}
     else
       let modelAccuracy := Js.or_num (Js.get modelPerformance model) (90 # 100) in
       predictionResult <-
         match Js.get modelServiceMap model with
         | Some url =>
             try_catch
               (console_log ("Calling external service: " ++ url)%string ;;;
                serviceResponse <- axios_post (Some url) patientData (Some 10000%Z) ;;
                console_log ("Service response for " ++ model ++ ":")%string ;;;
                ret {| prediction  := Js.or_str (data_prediction serviceResponse) "Unknown";
                       probability := Js.or_num (data_probability serviceResponse) (1 # 2);
                       confidence  :=
                         shown_number (Js.or_num (data_confidence serviceResponse) 0) |})
               (fun serviceError =>
                  console_error ("External service " ++ model ++ " failed: "
                                 ++ error_message serviceError)%string ;;;
                  generateMockPrediction patientData model)
         | None => generateMockPrediction patientData model
         end ;;
       let riskScore := probability predictionResult * 100 in
       let hasCKD := Js.gt (probability predictionResult) (1 # 2) in
       let riskLevel :=
         if hasCKD then "HIGH RISK: CKD Detected" else "LOW RISK: No CKD" in
       let confidence :=
         confidence_or_fixed (confidence predictionResult) riskScore in
       let resultMessage :=
         {| riskLevel := riskLevel; shownConfidence := confidence |} in
       let record :=
         {| doc_patient     := Some patientData;
            doc_predictedBy := Js.toUpperCase model;
            doc_prediction  := prediction predictionResult;
            doc_probability := probability predictionResult;
            doc_accuracy    := modelAccuracy;
            doc_riskScore   := Some riskScore |} in
       id <- record_save record ;;
       ret {| status := 200;
              body := Predicted
                {| risk_score      := riskScore;
                   result          := resultMessage;
                   shown           := parseFloat confidence;
                   body_model      := model;
                   model_display   := Js.capitalize model;
                   accuracy        := Js.toFixed1 (modelAccuracy * 100);
                   patientRecordId := id;
                   recommendation  :=
                     if hasCKD
                     then "High risk detected. Consult nephrologist immediately."
                     else "Low risk. Continue annual checkups." |} |})
    (fun error =>
       console_error ("Error in " ++ model ++ "/predict: " ++ error_message error)%string ;;;
       ret {| status := 500;
              body := PredictionFailed "Prediction failed" (error_message error) model
                        "Try using a different model or check your input data" |}).

End ServerV2.


(* ================================================================== *)
(** ** Concrete inputs and worlds *)

Module Sample.

(** age=70, bp=150, creatinine=1.5, urea=50, glucose=130,
    specific gravity=1.005, albumin=3, sugar=2. *)
Definition high_risk : PatientData :=
  {| age := Some 70; bp := Some 150; sc := Some (15 # 10); bu := Some 50;
     bgr := Some 130; sg := Some (1005 # 1000); al := Some 3; su := Some 2 |}.

(** age=50, bp=120, creatinine=1.0, urea=30, glucose=100, nothing else. *)
Definition neutral : PatientData :=
  {| age := Some 50; bp := Some 120; sc := Some 1; bu := Some 30;
     bgr := Some 100; sg := None; al := None; su := None |}.

(** A record with no measurement at all. *)
Definition blank : PatientData :=
  {| age := None; bp := None; sc := None; bu := None;
     bgr := None; sg := None; al := None; su := None |}.

(** A well-formed answer of a model service. *)
Definition ckd_payload : Payload :=
  {| data_prediction := Some "CKD";
     data_probability := Some (9 # 10);
     data_confidence := Some 90 |}.

(** An answer without a [prediction] field. *)
Definition unlabelled_payload : Payload :=
  {| data_prediction := None;
     data_probability := Some (9 # 10);
     data_confidence := Some 90 |}.

Definition db_up : Document -> SaveOutcome := fun _ => Saved "652f1c0a9d3e".
Definition db_down : Document -> SaveOutcome :=
  fun _ => SaveFailed "buffering timed out".

(** Every remote call fails at transport level. *)
Definition all_down : World :=
  {| remote := fun _ _ => Rejected Transport "Network Error"; database := db_up |}.

(** Every remote call times out. *)
Definition all_slow : World :=
  {| remote := fun _ _ => Rejected TimedOut "timeout exceeded"; database := db_up |}.

(** Every remote call answers [ckd_payload]. *)
Definition all_up : World :=
  {| remote := fun _ _ => Responded ckd_payload; database := db_up |}.

(** The first two calls fail, later ones answer. *)
Definition third_answers : World :=
  {| remote := fun n _ => if (n <? 2)%nat then Rejected BadStatus "Request failed with status code 503"
                          else Responded ckd_payload;
     database := db_up |}.

(** Remote services answer, the database rejects the write. *)
Definition up_but_db_down : World :=
  {| remote := fun _ _ => Responded ckd_payload; database := db_down |}.

(** Remote services answer without a label; the database is up. *)
Definition unlabelled : World :=
  {| remote := fun _ _ => Responded unlabelled_payload; database := db_up |}.

(** Remote services answer without a label; the database rejects the write. *)
Definition unlabelled_db_down : World :=
  {| remote := fun _ _ => Responded unlabelled_payload; database := db_down |}.

End Sample.


(* ================================================================== *)
(** ** Vocabulary of the statements *)

(** Whether the [n]-th call, made with request [r], gets a response. *)
Definition responds (w : World) (n : nat) (r : Request) : bool :=
  match remote w n r with
  | Responded _ => true
  | Rejected _ _ => false
  end.

(** Calls [n], [n+1], ... made with the requests of [l] all reject. *)
Definition all_rejected (w : World) (n : nat) (l : list Request) : Prop :=
  forall i r, nth_error l i = Some r -> responds w (n + i) r = false.

(** Two answers that differ at most in why (and with which message) the
    call rejected. *)
Definition same_answer (a b : Outcome) : Prop :=
  match a, b with
  | Responded x, Responded y => x = y
  | Rejected _ _, Rejected _ _ => True
  | _, _ => False
  end.

Module Dispatch.

Import MlComparisonService.

(** The order in which [getBestModelPrediction] goes through the models:
    [bestModel], then the sorted keys of [modelPerformance] without it. *)
Definition cascadeOrder (R : Registry) : list string :=
  bestModel R ::
  filter (fun name => negb (String.eqb name (bestModel R))) (fallbackModels R).

(** The request [getBestModelPrediction] makes for the model [name]. *)
Definition requestFor (R : Registry) (patientData : PatientData) (name : string)
  : Request :=
  {| req_url := Js.get (ML_MODELS R) name;
     req_body := patientData;
     req_timeout := None |}.

End Dispatch.

Module Compare.

Import MlComparisonService.

(** The request [compareAllModels] makes for one entry of [ML_MODELS]. *)
Definition requestFor (patientData : PatientData) (entry : string * string)
  : Request :=
  {| req_url := Some (snd entry);
     req_body := patientData;
     req_timeout := None |}.

(** The slot of the [n]-th call, for the entry [(name, url)]. *)
Definition slot (R : Registry) (patientData : PatientData) (w : World)
    (n : nat) (entry : string * string) : Entry :=
  {| entry_model    := Js.capitalize (fst entry);
     entry_accuracy := Js.or_num (Js.get (modelPerformance R) (fst entry)) 0;
     entry_status   :=
       match remote w n (requestFor patientData entry) with
       | Responded res =>
           success (Js.or_str (data_prediction res) "Unknown")
                   (Js.or_num (data_probability res) 0)
       | Rejected _ _ => failed "Service down"
       end |}.

Fixpoint slots (R : Registry) (patientData : PatientData) (w : World)
    (n : nat) (entries : list (string * string)) : list Entry :=
  match entries with
  | [] => []
  | entry :: rest =>
      slot R patientData w n entry :: slots R patientData w (S n) rest
  end.

(** Name and accuracy of a slot: what the ranking looks at. *)
Definition rank (e : Entry) : string * Q := (entry_model e, entry_accuracy e).

Definition succeeded (e : Entry) : bool :=
  match entry_status e with
  | success _ _ => true
  | failed _ => false
  end.

(** [a] may stand before [b] in a report: its accuracy is not lower. *)
Definition ranks_before (a b : Entry) : Prop :=
  entry_accuracy b <= entry_accuracy a.

End Compare.

(** The documents of a trace, in the order their writes were attempted. *)
Fixpoint saves (t : Trace) : list Document :=
  match t with
  | [] => []
  | Save d :: rest => d :: saves rest
  | _ :: rest => saves rest
  end.

(** [patientData] with every absent measurement set to 0. *)
Definition zero_filled (patientData : PatientData) : PatientData :=
  let fill (x : option Q) : option Q :=
    match x with Some q => Some q | None => Some 0 end in
  {| age := fill (age patientData); bp := fill (bp patientData);
     sc := fill (sc patientData);   bu := fill (bu patientData);
     bgr := fill (bgr patientData); sg := fill (sg patientData);
     al := fill (al patientData);   su := fill (su patientData) |}.

Module MoreSamples.

(** Age 65, blood pressure 145, creatinine 1.4, nothing else: the rules
    of the later estimate add up to 15 + 10 + 25 = 50. *)
Definition borderline : PatientData :=
  {| age := Some 65; bp := Some 145; sc := Some (14 # 10); bu := None;
     bgr := None; sg := None; al := None; su := None |}.

(** A labelled answer without a probability. *)
Definition ckd_without_probability : Payload :=
  {| data_prediction := Some "CKD";
     data_probability := None;
     data_confidence := None |}.

(** Remote services answer [ckd_without_probability]; the database is up. *)
Definition labelled_only : World :=
  {| remote := fun _ _ => Responded ckd_without_probability;
     database := Sample.db_up |}.

(** Every remote call fails and so does every write. *)
Definition all_down_db_down : World :=
  {| remote := fun _ _ => Rejected Transport "Network Error";
     database := Sample.db_down |}.

(** Two models share the top accuracy, a third has no accuracy entry. *)
Definition tied : MlComparisonService.Registry :=
  {| MlComparisonService.ML_MODELS :=
       [ ("alpha", "https://alpha.example/predict");
         ("beta",  "https://beta.example/predict");
         ("gamma", "https://gamma.example/predict") ];
     MlComparisonService.bestModel := "beta";
     MlComparisonService.modelPerformance :=
       [ ("beta", 9 # 10); ("alpha", 9 # 10) ] |}.

End MoreSamples.

(* ================================================================== *)
(** ** Facts about the JavaScript primitives *)

Lemma or_num_some_zero (q : Q) : Js.or_num (Some q) 0 == q.
Proof.
  unfold Js.or_num.
  destruct (Qeq_bool q 0) eqn:E; [| reflexivity].
  apply Qeq_bool_iff in E. now rewrite E.
Qed.

Lemma includes_spec (l : list string) (x : string) :
  Js.includes l x = true <-> In x l.
Proof.
  unfold Js.includes. rewrite existsb_exists. split.
  - intros (y & Hy & E). apply String.eqb_eq in E. now subst.
  - intros H. exists x. split; [assumption | apply String.eqb_refl].
Qed.

Lemma includes_false (l : list string) (x : string) :
  ~ In x l -> Js.includes l x = false.
Proof.
  intros H. destruct (Js.includes l x) eqn:E; [| reflexivity].
  apply includes_spec in E. contradiction.
Qed.

Section SortFacts.

Context {A : Type}.
Variable cmp : A -> A -> Q.

Lemma insert_perm (x : A) (l : list A) :
  Permutation (Js.insert cmp x l) (x :: l).
Proof.
  induction l as [| y rest IH]; simpl.
  - apply Permutation_refl.
  - destruct (Qle_bool (cmp x y) 0).
    + apply Permutation_refl.
    + apply perm_trans with (y :: x :: rest).
      * now apply perm_skip.
      * apply perm_swap.
Qed.

Lemma sort_perm (l : list A) : Permutation (Js.sort cmp l) l.
Proof.
  induction l as [| x rest IH]; simpl.
  - apply perm_nil.
  - apply perm_trans with (x :: Js.sort cmp rest).
    + apply insert_perm.
    + now apply perm_skip.
Qed.

Lemma sort_length (l : list A) : List.length (Js.sort cmp l) = List.length l.
Proof. apply Permutation_length, sort_perm. Qed.

End SortFacts.

Section SortByKey.

(** Sorting with the comparator [(a, b) => key(b) - key(a)]. *)
Context {A : Type}.
Variable key : A -> Q.

Local Abbreviation descending := (fun a b : A => key b - key a).
Local Abbreviation above := (fun a b : A => key b <= key a).

Lemma insert_descending (x : A) (l : list A) :
  StronglySorted above l -> StronglySorted above (Js.insert descending x l).
Proof.
  induction 1 as [| y rest Hsorted IH Hall]; simpl.
  - constructor; constructor.
  - destruct (Qle_bool (key y - key x) 0) eqn:E.
    + apply Qle_bool_iff in E. cbv beta in E.
      assert (Hyx : key y <= key x) by lra.
      constructor.
      * now constructor.
      * constructor; [exact Hyx |].
        eapply Forall_impl; [| exact Hall].
        intros z Hz. cbv beta in *. now apply Qle_trans with (key y).
    + assert (Hxy : key x <= key y).
      { destruct (Qlt_le_dec (key x) (key y)) as [Hlt | Hge].
        - now apply Qlt_le_weak.
        - exfalso. assert (Hle : key y - key x <= 0) by lra.
          apply Qle_bool_iff in Hle. congruence. }
      constructor; [exact IH |].
      apply Forall_forall. intros z Hz.
      apply (Permutation_in _ (insert_perm descending x rest)) in Hz.
      destruct Hz as [<- | Hz]; [exact Hxy |].
      rewrite Forall_forall in Hall. now apply Hall.
Qed.

Lemma sort_descending (l : list A) :
  StronglySorted above (Js.sort descending l).
Proof.
  induction l as [| x rest IH]; simpl.
  - constructor.
  - now apply insert_descending.
Qed.

End SortByKey.

Lemma sort_map {A B : Type} (f : A -> B) (cmpA : A -> A -> Q)
    (cmpB : B -> B -> Q) (l : list A) :
  (forall a b, cmpB (f a) (f b) = cmpA a b) ->
  map f (Js.sort cmpA l) = Js.sort cmpB (map f l).
Proof.
  intros Hcmp.
  assert (Hins : forall x l', map f (Js.insert cmpA x l')
                              = Js.insert cmpB (f x) (map f l')).
  { intros x l'. induction l' as [| y rest IH]; simpl; [reflexivity |].
    rewrite Hcmp. destruct (Qle_bool (cmpA x y) 0); simpl; [reflexivity |].
    now rewrite IH. }
  induction l as [| x rest IH]; simpl; [reflexivity |].
  now rewrite Hins, IH.
Qed.


(* ================================================================== *)
(** ** Facts about traces *)

Lemma calls_app (t u : Trace) : calls (t ++ u) = calls t ++ calls u.
Proof.
  induction t as [| e rest IH]; simpl; [reflexivity |].
  destruct e; simpl; now rewrite IH.
Qed.

Lemma calls_snoc_call (t : Trace) (r : Request) :
  calls (t ++ [Call r]) = calls t ++ [r].
Proof. now rewrite calls_app. Qed.

Lemma calls_snoc_log (t : Trace) (line : string) :
  calls (t ++ [Log line]) = calls t.
Proof. rewrite calls_app. simpl. apply app_nil_r. Qed.

Lemma calls_snoc_save (t : Trace) (d : Document) :
  calls (t ++ [Save d]) = calls t.
Proof. rewrite calls_app. simpl. apply app_nil_r. Qed.

Lemma calls_map_call (l : list Request) : calls (map Call l) = l.
Proof. induction l as [| r rest IH]; simpl; congruence. Qed.

Lemma all_rejected_nil (w : World) (n : nat) : all_rejected w n [].
Proof. intros [| i] r H; discriminate. Qed.

Lemma all_rejected_cons (w : World) (n : nat) (r : Request) (l : list Request) :
  responds w n r = false -> all_rejected w (S n) l -> all_rejected w n (r :: l).
Proof.
  intros Hr Hl [| i] r' H; simpl in H.
  - injection H as <-. now rewrite Nat.add_0_r.
  - rewrite Nat.add_succ_r. now apply Hl.
Qed.

(* ================================================================== *)
(** ** compareAllModels: the report is the sorted list of slots *)

Section CompareFacts.

Import MlComparisonService.

Variable R : Registry.
Variable patientData : PatientData.

Lemma query_run (entry : string * string) (w : World) (t : Trace) :
  query R patientData entry w t =
  (Return (Compare.slot R patientData w (List.length (calls t)) entry),
   t ++ [Call (Compare.requestFor patientData entry)]).
Proof.
  destruct entry as [name url].
  unfold query, try_catch, bind, axios_post, ret, Compare.slot,
    Compare.requestFor. simpl.
  destruct (remote w _ _); reflexivity.
Qed.

Lemma allSettled_query (entries : list (string * string)) (w : World) (t : Trace) :
  allSettled (map (query R patientData) entries) w t =
  (Return (map fulfilled
             (Compare.slots R patientData w (List.length (calls t)) entries)),
   t ++ map Call (map (Compare.requestFor patientData) entries)).
Proof.
  revert t. induction entries as [| entry rest IH]; intros t; simpl.
  - unfold ret. now rewrite app_nil_r.
  - unfold bind at 1. unfold settle. rewrite query_run.
    unfold bind at 1. rewrite IH. unfold ret.
    rewrite calls_snoc_call, length_app, Nat.add_comm. simpl.
    now rewrite <- app_assoc.
Qed.

Lemma fulfilled_values_map {A : Type} (l : list A) :
  fulfilled_values (map fulfilled l) = l.
Proof. induction l as [| x rest IH]; simpl; congruence. Qed.

Lemma compareAllModels_run (w : World) :
  run (compareAllModels R patientData) w =
  (Return (Js.sort by_accuracy (Compare.slots R patientData w 0 (ML_MODELS R))),
   map Call (map (Compare.requestFor patientData) (ML_MODELS R))).
Proof.
  unfold run, compareAllModels, bind. rewrite allSettled_query. simpl.
  unfold ret. now rewrite fulfilled_values_map.
Qed.

Lemma slots_length (w : World) (n : nat) (entries : list (string * string)) :
  List.length (Compare.slots R patientData w n entries) = List.length entries.
Proof.
  revert n. induction entries as [| e rest IH]; intros n; simpl; congruence.
Qed.

Lemma slots_nth (w : World) (entries : list (string * string)) :
  forall n i entry,
    nth_error entries i = Some entry ->
    nth_error (Compare.slots R patientData w n entries) i
    = Some (Compare.slot R patientData w (n + i) entry).
Proof.
  induction entries as [| e rest IH]; intros n [| i] entry H; simpl in *;
    try discriminate.
  - injection H as <-. now rewrite Nat.add_0_r.
  - rewrite Nat.add_succ_r. now apply (IH (S n)).
Qed.

Lemma slots_rank (w : World) (n : nat) (entries : list (string * string)) :
  map Compare.rank (Compare.slots R patientData w n entries) =
  map (fun entry => (Js.capitalize (fst entry),
                     Js.or_num (Js.get (modelPerformance R) (fst entry)) 0))
      entries.
Proof.
  revert n. induction entries as [| e rest IH]; intros n; simpl;
    [reflexivity |].
  now rewrite IH.
Qed.

End CompareFacts.

(* ================================================================== *)
(** ** getBestModelPrediction: the shape of every run *)

Section DispatchFacts.

Import MlComparisonService.

Variable R : Registry.
Variable patientData : PatientData.

Local Abbreviation req := (Dispatch.requestFor R patientData).
Local Abbreviation other := (fun name : string => negb (String.eqb name (bestModel R))).

Lemma attempt_run (name : string) (w : World) (t : Trace) :
  attempt R patientData name w t =
  match remote w (List.length (calls t)) (req name) with
  | Responded data =>
      (Return (Some (prediction_of R name data true)), t ++ [Call (req name)])
  | Rejected _ msg =>
      (Return None,
       (t ++ [Call (req name)]) ++ [Log (name ++ " also failed: " ++ msg)%string])
  end.
Proof.
  unfold attempt, try_catch, bind, axios_post, console_error, emit, ret,
    Dispatch.requestFor.
  destruct (remote w _ _); reflexivity.
Qed.

(** What a run of the [for] loop over [models] looks like, from any trace. *)
Lemma cascade_run (models : list string) :
  forall (w : World) (t t' : Trace) (res : Result BestPrediction),
    cascade R patientData models w t = (res, t') ->
    match res with
    | Return p =>
        exists tried name later data,
          filter other models = tried ++ name :: later /\
          calls t' = calls t ++ map req (tried ++ [name]) /\
          all_rejected w (List.length (calls t)) (map req tried) /\
          remote w (List.length (calls t) + List.length tried) (req name)
            = Responded data /\
          p = prediction_of R name data true
    | Throw e =>
        e = MkError "All model services unavailable" /\
        calls t' = calls t ++ map req (filter other models) /\
        all_rejected w (List.length (calls t)) (map req (filter other models))
    end.
Proof.
  induction models as [| name rest IH]; intros w t t' res Hrun; simpl in Hrun.
  - unfold throw in Hrun. injection Hrun as <- <-. simpl.
    rewrite app_nil_r. repeat split. apply all_rejected_nil.
  - cbn [filter]. cbv beta.
    destruct (String.eqb name (bestModel R)) eqn:Ebest; cbn [negb].
    + now apply IH.
    + unfold bind in Hrun. rewrite attempt_run in Hrun.
      destruct (remote w (List.length (calls t)) (req name)) as [data | kind msg] eqn:Eremote.
      * unfold ret in Hrun. injection Hrun as <- <-.
        exists [], name, (filter other rest), data. simpl.
        rewrite calls_snoc_call, Nat.add_0_r.
        repeat split; try assumption. apply all_rejected_nil.
      * specialize (IH w _ t' res Hrun).
        rewrite calls_snoc_log, calls_snoc_call in IH.
        rewrite length_app in IH. simpl in IH.
        rewrite Nat.add_1_r in IH.
        assert (Hrej : responds w (List.length (calls t)) (req name) = false)
          by (unfold responds; now rewrite Eremote).
        destruct res as [p | e].
        -- destruct IH as (tried & name' & later & data & Hsplit & Hcalls & Hall & Hok & Hp).
           exists (name :: tried), name', later, data. simpl.
           repeat split.
           ++ now rewrite Hsplit.
           ++ rewrite Hcalls, <- app_assoc. reflexivity.
           ++ now apply all_rejected_cons.
           ++ now rewrite Nat.add_succ_r.
           ++ assumption.
        -- destruct IH as (He & Hcalls & Hall).
           repeat split.
           ++ assumption.
           ++ rewrite Hcalls, <- app_assoc. reflexivity.
           ++ now apply all_rejected_cons.
Qed.

(** What a run of [getBestModelPrediction] looks like. *)
Lemma getBestModelPrediction_run (w : World) (t : Trace)
    (res : Result BestPrediction) :
  run (getBestModelPrediction R patientData) w = (res, t) ->
  match res with
  | Return p =>
      exists tried name later data,
        Dispatch.cascadeOrder R = tried ++ name :: later /\
        calls t = map req (tried ++ [name]) /\
        all_rejected w 0 (map req tried) /\
        remote w (List.length tried) (req name) = Responded data /\
        p = prediction_of R name data
              (match tried with [] => false | _ :: _ => true end)
  | Throw e =>
      e = MkError "All model services unavailable" /\
      calls t = map req (Dispatch.cascadeOrder R) /\
      all_rejected w 0 (map req (Dispatch.cascadeOrder R))
  end.
Proof.
  unfold run, getBestModelPrediction, try_catch, bind, axios_post, ret.
  simpl.
  fold (Dispatch.requestFor R patientData (bestModel R)).
  destruct (remote w 0%nat (req (bestModel R))) as [data | kind msg] eqn:Eremote.
  - intros H. injection H as <- <-.
    exists [], (bestModel R), (filter other (fallbackModels R)), data.
    repeat split; [apply all_rejected_nil | exact Eremote].
  - unfold console_error, emit. intros Hrun.
    apply cascade_run in Hrun. simpl in Hrun.
    assert (Hrej : responds w 0 (req (bestModel R)) = false)
      by (unfold responds; now rewrite Eremote).
    destruct res as [p | e].
    + destruct Hrun as (tried & name & later & data & Hsplit & Hcalls & Hall & Hok & Hp).
      exists (bestModel R :: tried), name, later, data.
      unfold Dispatch.cascadeOrder. rewrite Hsplit.
      repeat split; try assumption.
      now apply all_rejected_cons.
    + destruct Hrun as (He & Hcalls & Hall).
      unfold Dispatch.cascadeOrder.
      repeat split; try assumption.
      now apply all_rejected_cons.
Qed.

End DispatchFacts.

Lemma StronglySorted_impl {A : Type} (P Q : A -> A -> Prop) (l : list A) :
  (forall a b, P a b -> Q a b) -> StronglySorted P l -> StronglySorted Q l.
Proof.
  intros HPQ. induction 1 as [| x rest Hs IH Hall]; constructor.
  - exact IH.
  - eapply Forall_impl; [| exact Hall]. intros y. apply HPQ.
Qed.

(* ================================================================== *)
(** ** The comparison report *)

Section CompareProperties.

Import MlComparisonService.

(** C2. For every feature record and every registry, [compareAllModels]
    returns (it never throws) a report with exactly one slot per registered
    model, however many of the calls fail: a model whose call is rejected
    is in the report with the error ["Service down"] and its accuracy, not
    dropped.  In particular the report of a registry of size at least 1 is
    not empty. *)
Theorem compareAllModels_report_length :
  forall (R : Registry) (patientData : PatientData) (w : World),
  exists report : list Entry,
    fst (run (compareAllModels R patientData) w) = Return report /\
    List.length report = List.length (ML_MODELS R) /\
    ((1 <= List.length (ML_MODELS R))%nat -> report <> []) /\
    (forall i entry,
        nth_error (ML_MODELS R) i = Some entry ->
        responds w i (Compare.requestFor patientData entry) = false ->
        In {| entry_model    := Js.capitalize (fst entry);
              entry_accuracy :=
                Js.or_num (Js.get (modelPerformance R) (fst entry)) 0;
              entry_status   := failed "Service down" |} report).
Proof.
  intros R patientData w.
  rewrite compareAllModels_run. simpl fst.
  eexists. split; [reflexivity |].
  assert (Hlen : List.length
            (Js.sort (by_accuracy)
               (Compare.slots R patientData w 0 (ML_MODELS R)))
          = List.length (ML_MODELS R))
    by (now rewrite sort_length, slots_length).
  split; [exact Hlen |]. split.
  - intros Hsize Hnil. rewrite Hnil in Hlen. simpl in Hlen. lia.
  - intros i entry Hnth Hrej.
    apply Permutation_in with (l := Compare.slots R patientData w 0 (ML_MODELS R)).
    + apply Permutation_sym, sort_perm.
    + apply (slots_nth R patientData w _ 0) in Hnth.
      apply nth_error_In in Hnth. simpl in Hnth.
      unfold Compare.slot in Hnth. unfold responds in Hrej.
      destruct (remote w i (Compare.requestFor patientData entry));
        [discriminate | exact Hnth].
Qed.

Lemma compareAllModels_report_length_witness :
  exists report : list Entry,
    fst (run (compareAllModels registry Sample.high_risk) Sample.third_answers)
    = Return report /\
    List.length report = 5%nat /\
    In {| entry_model    := "Logistic";
          entry_accuracy := 95 # 100;
          entry_status   := failed "Service down" |} report.
Proof.
  destruct (compareAllModels_report_length registry Sample.high_risk
              Sample.third_answers) as (report & Hrun & Hlen & _ & Hfailed).
  exists report. split; [exact Hrun |]. split; [exact Hlen |].
  apply (Hfailed 0%nat
           ("logistic", "https://logistic-service-djty.onrender.com/predict"));
    reflexivity.
Defined.


End CompareProperties.

(* ================================================================== *)
(** ** The cascade of getBestModelPrediction *)

Section DispatchProperties.

Import MlComparisonService.

Lemma cascade_requests_untimed (R : Registry) (patientData : PatientData)
    (names : list string) :
  Forall (fun r => req_timeout r = None)
         (map (Dispatch.requestFor R patientData) names).
Proof.
  apply Forall_forall. intros r Hr. apply in_map_iff in Hr.
  destruct Hr as (name & <- & _). reflexivity.
Qed.

(** Two worlds whose answers agree up to the reason of a rejection drive
    the [for] loop through the same calls to the same result. *)
Lemma cascade_same_answer (R : Registry) (patientData : PatientData)
    (w1 w2 : World) :
  (forall n r, same_answer (remote w1 n r) (remote w2 n r)) ->
  forall (models : list string) (t1 t2 : Trace),
    calls t1 = calls t2 ->
    fst (cascade R patientData models w1 t1)
    = fst (cascade R patientData models w2 t2) /\
    calls (snd (cascade R patientData models w1 t1))
    = calls (snd (cascade R patientData models w2 t2)).
Proof.
  intros Hsame. induction models as [| name rest IH]; intros t1 t2 Ht; simpl.
  - unfold throw. simpl. now split.
  - destruct (String.eqb name (bestModel R)); [now apply IH |].
    unfold bind. rewrite !attempt_run. rewrite <- Ht.
    specialize (Hsame (List.length (calls t1))
                      (Dispatch.requestFor R patientData name)).
    destruct (remote w1 _ _) as [d1 | k1 m1], (remote w2 _ _) as [d2 | k2 m2];
      simpl in Hsame; try contradiction.
    + subst d2. unfold ret. simpl.
      rewrite !calls_snoc_call, Ht. now split.
    + apply IH. rewrite !calls_snoc_log, !calls_snoc_call. now rewrite Ht.
Qed.

Lemma getBestModelPrediction_same_answer (R : Registry)
    (patientData : PatientData) (w1 w2 : World) :
  (forall n r, same_answer (remote w1 n r) (remote w2 n r)) ->
  fst (run (getBestModelPrediction R patientData) w1)
  = fst (run (getBestModelPrediction R patientData) w2) /\
  calls (snd (run (getBestModelPrediction R patientData) w1))
  = calls (snd (run (getBestModelPrediction R patientData) w2)).
Proof.
  intros Hsame.
  unfold run, getBestModelPrediction, try_catch, bind, axios_post, ret. simpl.
  pose proof (Hsame 0%nat (Dispatch.requestFor R patientData (bestModel R))) as H0.
  unfold Dispatch.requestFor in H0.
  destruct (remote w1 0%nat _) as [d1 | k1 m1], (remote w2 0%nat _) as [d2 | k2 m2];
    simpl in H0; try contradiction.
  - subst d2. simpl. now split.
  - unfold console_error, emit. now apply cascade_same_answer.
Qed.

Lemma split_at_same_length {A : Type} (l1 l2 r1 r2 : list A) (x y : A) :
  List.length l1 = List.length l2 ->
  l1 ++ x :: r1 = l2 ++ y :: r2 ->
  l1 = l2 /\ x = y /\ r1 = r2.
Proof.
  revert l2. induction l1 as [| a l1 IH]; intros [| b l2] Hlen Heq;
    simpl in *; try discriminate.
  - injection Heq as -> ->. repeat split.
  - injection Heq as -> Heq. injection Hlen as Hlen.
    destruct (IH l2 Hlen Heq) as (-> & -> & ->). repeat split.
Qed.

Lemma nth_error_middle {A : Type} (l r : list A) (x : A) :
  nth_error (l ++ x :: r) (List.length l) = Some x.
Proof.
  rewrite nth_error_app2 by lia. now rewrite Nat.sub_diag.
Qed.

(** A request of the cascade that is rejected cannot sit at the place of
    one that responded. *)
Lemma rejected_prefix_shorter (R : Registry) (patientData : PatientData)
    (w : World) (order tried later tried' later' : list string)
    (name name' : string) (data : Payload) :
  order = tried ++ name :: later ->
  order = tried' ++ name' :: later' ->
  remote w (List.length tried) (Dispatch.requestFor R patientData name)
  = Responded data ->
  all_rejected w 0 (map (Dispatch.requestFor R patientData) tried') ->
  (List.length tried' <= List.length tried)%nat.
Proof.
  intros Ho Ho' Hok Hall.
  destruct (Nat.le_gt_cases (List.length tried') (List.length tried))
    as [Hle | Hgt]; [exact Hle | exfalso].
  assert (Hnth : nth_error tried' (List.length tried) = Some name).
  { rewrite <- (nth_error_app1 tried' (name' :: later')) by exact Hgt.
    rewrite <- Ho', Ho. apply nth_error_middle. }
  specialize (Hall (List.length tried) (Dispatch.requestFor R patientData name)).
  rewrite nth_error_map, Hnth in Hall. specialize (Hall eq_refl).
  unfold responds in Hall. simpl in Hall. rewrite Hok in Hall. discriminate.
Qed.

(** In a cascade order there is one first responder. *)
Lemma first_responder_unique (R : Registry) (patientData : PatientData)
    (w : World) (order tried later tried' later' : list string)
    (name name' : string) (data data' : Payload) :
  order = tried ++ name :: later ->
  order = tried' ++ name' :: later' ->
  all_rejected w 0 (map (Dispatch.requestFor R patientData) tried) ->
  remote w (List.length tried) (Dispatch.requestFor R patientData name)
  = Responded data ->
  all_rejected w 0 (map (Dispatch.requestFor R patientData) tried') ->
  remote w (List.length tried') (Dispatch.requestFor R patientData name')
  = Responded data' ->
  tried' = tried /\ name' = name /\ later' = later /\ data' = data.
Proof.
  intros Horder Horder' Hall Hok Hall' Hok'.
  assert (Hlen : List.length tried = List.length tried').
  { apply Nat.le_antisymm.
    - eapply rejected_prefix_shorter;
        [exact Horder' | exact Horder | exact Hok' | exact Hall].
    - eapply rejected_prefix_shorter;
        [exact Horder | exact Horder' | exact Hok | exact Hall']. }
  rewrite Horder in Horder'.
  destruct (split_at_same_length _ _ _ _ _ _ Hlen Horder') as (<- & <- & <-).
  rewrite Hok in Hok'. injection Hok' as <-. repeat split.
Qed.

(** A cascade with a responder does not run out. *)
Lemma responder_not_rejected (R : Registry) (patientData : PatientData)
    (w : World) (tried later : list string) (name : string) (data : Payload) :
  remote w (List.length tried) (Dispatch.requestFor R patientData name)
  = Responded data ->
  ~ all_rejected w 0
      (map (Dispatch.requestFor R patientData) (tried ++ name :: later)).
Proof.
  intros Hok Hall.
  specialize (Hall (List.length tried) (Dispatch.requestFor R patientData name)).
  rewrite nth_error_map, nth_error_middle in Hall. specialize (Hall eq_refl).
  unfold responds in Hall. simpl in Hall. rewrite Hok in Hall. discriminate.
Qed.

(** C3. For every registry, feature record and pattern of remote answers:
    the first call that responds is the one whose answer is returned, at
    once: if the calls to the models ranked before [name] are rejected and
    the call to [name] responds with [data], the result is the prediction
    built from [data] and the calls issued are those up to [name], none
    after it.  Moreover the calls [getBestModelPrediction] issues are
    always an initial part of the cascade order (best model, then the
    others by descending accuracy), each model at most once; every call but
    the last one was rejected, so nothing is attempted after a call that
    responded; and a returned prediction is built from the last call,
    which responded.  With the tables of the service the cascade order is
    strictly descending in accuracy, so no model ranked below one that has
    succeeded is ever called. *)
Theorem getBestModelPrediction_short_circuit :
  forall (R : Registry) (patientData : PatientData) (w : World),
    let outcome := run (getBestModelPrediction R patientData) w in
    let issued := calls (snd outcome) in
    (forall (tried later : list string) (name : string) (data : Payload),
        Dispatch.cascadeOrder R = tried ++ name :: later ->
        all_rejected w 0 (map (Dispatch.requestFor R patientData) tried) ->
        remote w (List.length tried) (Dispatch.requestFor R patientData name)
        = Responded data ->
        fst outcome
        = Return (prediction_of R name data
                    (match tried with [] => false | _ :: _ => true end)) /\
        issued = map (Dispatch.requestFor R patientData) (tried ++ [name])) /\
    (exists untried,
        map (Dispatch.requestFor R patientData) (Dispatch.cascadeOrder R)
        = issued ++ untried) /\
    (forall i r,
        nth_error issued i = Some r ->
        (S i < List.length issued)%nat ->
        responds w i r = false) /\
    (forall p,
        fst outcome = Return p ->
        exists name data,
          nth_error issued (pred (List.length issued))
          = Some (Dispatch.requestFor R patientData name) /\
          remote w (pred (List.length issued))
                 (Dispatch.requestFor R patientData name) = Responded data /\
          p = prediction_of R name data
                (negb (Nat.eqb (List.length issued) 1))) /\
    Dispatch.cascadeOrder registry
    = ["xgboost"; "randomforest"; "neuralnetwork"; "logistic"; "svm"] /\
    StronglySorted
      (fun a b => performance registry b < performance registry a)
      (Dispatch.cascadeOrder registry).
Proof.
  intros R patientData w outcome issued. subst issued outcome.
  split.
  { intros tried later name data Horder Hall Hok.
    destruct (run (getBestModelPrediction R patientData) w) as [res t] eqn:Hrun.
    apply getBestModelPrediction_run in Hrun. simpl.
    destruct res as [p | e].
    - destruct Hrun as (tried' & name' & later' & data' & Horder' & Hcalls & Hall' & Hok' & Hp).
      destruct (first_responder_unique R patientData w _ _ _ _ _ _ _ _ _
                  Horder Horder' Hall Hok Hall' Hok') as (-> & -> & -> & ->).
      split; [now rewrite Hp | exact Hcalls].
    - exfalso. destruct Hrun as (_ & _ & Hall').
      rewrite Horder in Hall'.
      exact (responder_not_rejected R patientData w _ _ _ _ Hok Hall'). }
  destruct (run (getBestModelPrediction R patientData) w) as [res t] eqn:Hrun.
  apply getBestModelPrediction_run in Hrun. simpl fst. simpl snd.
  assert (Hregistry :
            Dispatch.cascadeOrder registry
            = ["xgboost"; "randomforest"; "neuralnetwork"; "logistic"; "svm"])
    by reflexivity.
  assert (Hsorted :
            StronglySorted
              (fun a b => performance registry b < performance registry a)
              (Dispatch.cascadeOrder registry)).
  { rewrite Hregistry.
    repeat (constructor; [| repeat (constructor; [reflexivity |]); constructor]).
    constructor. }
  destruct res as [p | e].
  - destruct Hrun as (tried & name & later & data & Hsplit & Hcalls & Hall & Hok & Hp).
    rewrite Hcalls, Hsplit.
    assert (Hlen : List.length
                     (map (Dispatch.requestFor R patientData) (tried ++ [name]))
                   = S (List.length tried)).
    { rewrite length_map, length_app. simpl. lia. }
    repeat split; try assumption.
    + exists (map (Dispatch.requestFor R patientData) later).
      rewrite <- map_app, <- app_assoc. reflexivity.
    + intros i r Hnth Hlt. rewrite Hlen in Hlt.
      rewrite map_app, nth_error_app1 in Hnth
        by (rewrite length_map; lia).
      apply (Hall i r Hnth).
    + intros p' Hp'. injection Hp' as <-.
      exists name, data. rewrite Hlen. simpl pred.
      repeat split.
      * rewrite map_app, nth_error_app2 by (rewrite length_map; lia).
        rewrite length_map, Nat.sub_diag. reflexivity.
      * exact Hok.
      * rewrite Hp. f_equal. destruct tried; reflexivity.
  - destruct Hrun as (He & Hcalls & Hall).
    rewrite Hcalls.
    repeat split; try assumption.
    + exists []. now rewrite app_nil_r.
    + intros i r Hnth _. apply (Hall i r Hnth).
    + intros p Hp. discriminate.
Qed.

Lemma getBestModelPrediction_short_circuit_witness :
  responds Sample.third_answers 0
    (Dispatch.requestFor registry Sample.high_risk "xgboost") = false /\
  (exists name data,
      remote Sample.third_answers 2
        (Dispatch.requestFor registry Sample.high_risk name) = Responded data /\
      fst (run (getBestModelPrediction registry Sample.high_risk)
               Sample.third_answers)
      = Return (prediction_of registry name data true)) /\
  fst (run (getBestModelPrediction registry Sample.high_risk) Sample.third_answers)
  = Return (prediction_of registry "neuralnetwork" Sample.ckd_payload true) /\
  calls (snd (run (getBestModelPrediction registry Sample.high_risk)
                  Sample.third_answers))
  = map (Dispatch.requestFor registry Sample.high_risk)
        ["xgboost"; "randomforest"; "neuralnetwork"].
Proof.
  destruct (getBestModelPrediction_short_circuit registry Sample.high_risk
              Sample.third_answers) as (Hfirst & _ & Hfailed & Hlast & _).
  split; [| split].
  - apply (Hfailed 0%nat); [reflexivity | simpl; lia].
  - destruct (Hlast _ eq_refl) as (name & data & _ & Hok & Hp).
    exists name, data. split; [exact Hok |].
    simpl in Hp. simpl. f_equal. exact Hp.
  - apply (Hfirst ["xgboost"; "randomforest"] ["logistic"; "svm"]
                  "neuralnetwork" Sample.ckd_payload).
    + reflexivity.
    + intros [| [| [| i]]] r H; simpl in H; try discriminate;
        injection H as <-; reflexivity.
    + reflexivity.
Defined.

(** C1 (amended). For every registry and feature record, when every
    remote call is rejected, [getBestModelPrediction] calls each model of
    the cascade once, in order, and then throws
    [Error('All model services unavailable')]: it returns no prediction and
    makes no local estimate. *)
Theorem getBestModelPrediction_all_rejected :
  forall (R : Registry) (patientData : PatientData) (w : World),
    (forall n r, responds w n r = false) ->
    fst (run (getBestModelPrediction R patientData) w)
    = Throw (MkError "All model services unavailable") /\
    calls (snd (run (getBestModelPrediction R patientData) w))
    = map (Dispatch.requestFor R patientData) (Dispatch.cascadeOrder R).
Proof.
  intros R patientData w Hdown.
  destruct (run (getBestModelPrediction R patientData) w) as [res t] eqn:Hrun.
  apply getBestModelPrediction_run in Hrun. simpl.
  destruct res as [p | e].
  - destruct Hrun as (tried & name & later & data & _ & _ & _ & Hok & _).
    specialize (Hdown (List.length tried) (Dispatch.requestFor R patientData name)).
    unfold responds in Hdown. rewrite Hok in Hdown. discriminate.
  - destruct Hrun as (-> & Hcalls & _). now split.
Qed.

End DispatchProperties.

Lemma getBestModelPrediction_all_rejected_witness :
  (forall n r, responds Sample.all_down n r = false) /\
  fst (run (MlComparisonService.getBestModelPrediction
              MlComparisonService.registry Sample.high_risk) Sample.all_down)
  = Throw (MkError "All model services unavailable") /\
  calls (snd (run (MlComparisonService.getBestModelPrediction
                     MlComparisonService.registry Sample.high_risk)
                  Sample.all_down))
  = map (Dispatch.requestFor MlComparisonService.registry Sample.high_risk)
        (Dispatch.cascadeOrder MlComparisonService.registry).
Proof.
  split.
  - intros n r. reflexivity.
  - apply (getBestModelPrediction_all_rejected
             MlComparisonService.registry Sample.high_risk Sample.all_down).
    intros n r. reflexivity.
Defined.

(** C1, as stated, fails: with every remote call rejected at transport
    level the dispatcher throws instead of returning a local estimate. *)
Lemma getBestModelPrediction_throws_when_all_down :
  (forall n r, responds Sample.all_down n r = false) /\
  fst (run (MlComparisonService.getBestModelPrediction
              MlComparisonService.registry Sample.high_risk) Sample.all_down)
  = Throw (MkError "All model services unavailable") /\
  (forall p,
      fst (run (MlComparisonService.getBestModelPrediction
                  MlComparisonService.registry Sample.high_risk) Sample.all_down)
      <> Return p).
Proof.
  split; [intros n r; reflexivity |].
  split; [reflexivity |].
  intros p H. vm_compute in H. discriminate.
Qed.

(* ================================================================== *)
(** ** Time-outs and retries *)

Section TimeoutProperties.

Import MlComparisonService.

Lemma generateMockPrediction_run (patientData : PatientData) (model : string)
    (w : World) (t : Trace) :
  ServerRev.generateMockPrediction patientData model w t =
  (Return (ServerRev.mockPrediction patientData model),
   t ++ [Log ("Generating mock prediction for " ++ model)%string]).
Proof. reflexivity. Qed.

(** The three ways [handleModelPrediction] can go. *)
Lemma handleModelPrediction_run (model : string) (patientData : PatientData)
    (w : World) :
  run (ServerRev.handleModelPrediction model patientData) w =
  let handled (p : ServerRev.PredictionResult) :=
    {| ServerRev.predictionResult := p;
       ServerRev.modelAccuracy :=
         Js.or_num (Js.get ServerRev.modelPerformance model) (90 # 100);
       ServerRev.model := model |} in
  let started := Log ("Processing prediction for model: " ++ model)%string in
  let estimating := Log ("Generating mock prediction for " ++ model)%string in
  match Js.get ServerRev.modelServiceMap model with
  | Some url =>
      let r := {| req_url := Some url; req_body := patientData;
                  req_timeout := Some 10000%Z |} in
      let calling := Log ("Calling external service: " ++ url)%string in
      match remote w 0%nat r with
      | Responded data =>
          (Return (handled
             {| ServerRev.prediction :=
                  Js.or_str (data_prediction data) "Unknown";
                ServerRev.probability :=
                  Js.or_num (data_probability data) (1 # 2);
                ServerRev.confidence :=
                  shown_number (Js.or_num (data_confidence data) 0) |}),
           [started; calling; Call r;
            Log ("Service " ++ model ++ " responded successfully")%string])
      | Rejected _ msg =>
          (Return (handled (ServerRev.mockPrediction patientData model)),
           [started; calling; Call r;
            Log ("External service " ++ model ++ " failed: " ++ msg)%string;
            estimating])
      end
  | None =>
      (Return (handled (ServerRev.mockPrediction patientData model)),
       [started; estimating])
  end.
Proof.
  unfold run, ServerRev.handleModelPrediction.
  destruct (Js.get ServerRev.modelServiceMap model) as [url |]; cbv zeta.
  - unfold bind, try_catch, axios_post, console_log, console_error, emit, ret.
    cbn [app calls List.length].
    destruct (remote w 0%nat _) as [data | kind msg].
    + reflexivity.
    + rewrite generateMockPrediction_run. reflexivity.
  - unfold bind, console_log, emit. rewrite generateMockPrediction_run.
    reflexivity.
Qed.

Lemma handleModelPrediction_calls (model : string) (patientData : PatientData)
    (w : World) :
  let issued :=
    calls (snd (run (ServerRev.handleModelPrediction model patientData) w)) in
  Forall (fun r => req_timeout r = Some 10000%Z) issued /\
  (List.length issued <= 1)%nat.
Proof.
  rewrite handleModelPrediction_run. cbv zeta.
  destruct (Js.get ServerRev.modelServiceMap model) as [url |].
  - destruct (remote w 0%nat _); cbn [snd calls List.length];
      split; auto.
  - cbn [snd calls List.length]. split; auto.
Qed.

Lemma handleModelPrediction_same_answer (model : string)
    (patientData : PatientData) (w1 w2 : World) :
  (forall n r, same_answer (remote w1 n r) (remote w2 n r)) ->
  fst (run (ServerRev.handleModelPrediction model patientData) w1)
  = fst (run (ServerRev.handleModelPrediction model patientData) w2) /\
  calls (snd (run (ServerRev.handleModelPrediction model patientData) w1))
  = calls (snd (run (ServerRev.handleModelPrediction model patientData) w2)).
Proof.
  intros Hsame. rewrite !handleModelPrediction_run. cbv zeta.
  destruct (Js.get ServerRev.modelServiceMap model) as [url |];
    [| now split].
  specialize (Hsame 0%nat
                {| req_url := Some url; req_body := patientData;
                   req_timeout := Some 10000%Z |}).
  destruct (remote w1 0%nat _) as [d1 | k1 m1], (remote w2 0%nat _) as [d2 | k2 m2];
    simpl in Hsame; try contradiction.
  - subst d2. now split.
  - now split.
Qed.

(** C4 (amended).  Every remote call issued by [handleModelPrediction] is
    made with [timeout: 10000] and there is at most one per request.  The
    calls of [getBestModelPrediction] are made without a time-out option;
    they go through the cascade order once, no model being called twice.
    In both, a rejected call is handled the same whatever the reason of the
    rejection (time-out, transport, status): two worlds that differ only
    in these reasons give the same result through the same calls. *)
Theorem remote_call_timeouts :
  forall (R : Registry) (model : string) (patientData : PatientData)
         (w w' : World),
    (let issued :=
       calls (snd (run (ServerRev.handleModelPrediction model patientData) w)) in
     Forall (fun r => req_timeout r = Some 10000%Z) issued /\
     (List.length issued <= 1)%nat) /\
    (let issued :=
       calls (snd (run (getBestModelPrediction R patientData) w)) in
     Forall (fun r => req_timeout r = None) issued /\
     exists untried,
       map (Dispatch.requestFor R patientData) (Dispatch.cascadeOrder R)
       = issued ++ untried) /\
    NoDup (Dispatch.cascadeOrder registry) /\
    ((forall n r, same_answer (remote w n r) (remote w' n r)) ->
     fst (run (getBestModelPrediction R patientData) w)
     = fst (run (getBestModelPrediction R patientData) w') /\
     calls (snd (run (getBestModelPrediction R patientData) w))
     = calls (snd (run (getBestModelPrediction R patientData) w')) /\
     fst (run (ServerRev.handleModelPrediction model patientData) w)
     = fst (run (ServerRev.handleModelPrediction model patientData) w') /\
     calls (snd (run (ServerRev.handleModelPrediction model patientData) w))
     = calls (snd (run (ServerRev.handleModelPrediction model patientData) w'))).
Proof.
  intros R model patientData w w'.
  split; [apply handleModelPrediction_calls |].
  split.
  - cbv zeta.
    destruct (run (getBestModelPrediction R patientData) w) as [res t] eqn:Hrun.
    apply getBestModelPrediction_run in Hrun. simpl snd.
    destruct res as [p | e].
    + destruct Hrun as (tried & name & later & data & Hsplit & Hcalls & _).
      rewrite Hcalls, Hsplit. split.
      * apply cascade_requests_untimed.
      * exists (map (Dispatch.requestFor R patientData) later).
        rewrite <- map_app, <- app_assoc. reflexivity.
    + destruct Hrun as (_ & Hcalls & _). rewrite Hcalls. split.
      * apply cascade_requests_untimed.
      * exists []. now rewrite app_nil_r.
  - split.
    + change (Dispatch.cascadeOrder registry)
        with ["xgboost"; "randomforest"; "neuralnetwork"; "logistic"; "svm"].
      repeat (constructor;
              [simpl; intros H;
               repeat (destruct H as [H | H]; [discriminate |]); exact H |]).
      constructor.
    + intros Hsame.
      destruct (getBestModelPrediction_same_answer R patientData w w' Hsame)
        as [Hres Hcalls].
      destruct (handleModelPrediction_same_answer model patientData w w' Hsame)
        as [Hres' Hcalls'].
      repeat split; assumption.
Qed.

Lemma remote_call_timeouts_witness :
  (forall n r, same_answer (remote Sample.all_down n r) (remote Sample.all_slow n r)) /\
  fst (run (ServerRev.handleModelPrediction "svm" Sample.high_risk) Sample.all_down)
  = fst (run (ServerRev.handleModelPrediction "svm" Sample.high_risk) Sample.all_slow) /\
  fst (run (getBestModelPrediction registry Sample.high_risk) Sample.all_down)
  = fst (run (getBestModelPrediction registry Sample.high_risk) Sample.all_slow).
Proof.
  assert (Hsame : forall n r,
             same_answer (remote Sample.all_down n r) (remote Sample.all_slow n r))
    by (intros n r; exact I).
  split; [exact Hsame |].
  destruct (remote_call_timeouts registry "svm" Sample.high_risk
              Sample.all_down Sample.all_slow) as (_ & _ & _ & Hindifferent).
  destruct (Hindifferent Hsame) as (Hbest & _ & Hmodel & _).
  split; assumption.
Defined.

(** C4, as stated, fails: the call the dispatcher makes to the best model
    carries no time-out. *)
Lemma getBestModelPrediction_call_without_timeout :
  calls (snd (run (getBestModelPrediction registry Sample.high_risk) Sample.all_up))
  = [ {| req_url := Some "https://xgboost-service-ddal.onrender.com/predict";
         req_body := Sample.high_risk;
         req_timeout := None |} ] /\
  exists r,
    In r (calls (snd (run (getBestModelPrediction registry Sample.high_risk)
                          Sample.all_up))) /\
    req_timeout r <> Some 10000%Z.
Proof.
  split; [reflexivity |].
  eexists. split; [left; reflexivity |]. discriminate.
Qed.

End TimeoutProperties.

(* ================================================================== *)
(** ** The per-model routes *)

Section RouteProperties.

Lemma valid_model_has_service (model : string) :
  In model Server.validModels ->
  exists url, Js.get Server.modelServiceMap model = Some url.
Proof.
  intros H. simpl in H.
  repeat (destruct H as [<- | H]; [eexists; reflexivity |]).
  contradiction.
Qed.

(** C6. A request to [/:model/predict] whose identifier is not one of the
    five valid models is answered with status 400 and the message
    ["Invalid model. Choose from: xgboost, randomforest, svm, logistic,
    neuralnetwork"], and its trace is empty: no remote call (and no save)
    is made.  This holds for the route of [server.js], which tests the
    identifier as received, and for the generic route of the later
    revision, which tests it after [toLowerCase]. *)
Theorem unknown_model_is_rejected :
  forall (toLowerCase : string -> string) (param : string)
         (patientData : PatientData) (w : World),
    (~ In param Server.validModels ->
     run (Server.predict param patientData) w
     = (Return {| Server.status := 400;
                  Server.body := Server.InvalidModel
                    "Invalid model. Choose from: xgboost, randomforest, svm, logistic, neuralnetwork" |},
        [])) /\
    (~ In (toLowerCase param) ServerRev.validModels ->
     run (ServerRev.predict toLowerCase param patientData) w
     = (Return {| ServerRev.status := 400;
                  ServerRev.body := ServerRev.InvalidModel
                    "Invalid model. Choose from: xgboost, randomforest, svm, logistic, neuralnetwork"
                    (toLowerCase param) |},
        [])).
Proof.
  intros toLowerCase param patientData w. split; intros Hunknown.
  - unfold run, Server.predict, try_catch.
    rewrite (includes_false _ _ Hunknown). reflexivity.
  - unfold run, ServerRev.predict, try_catch. cbv zeta.
    rewrite (includes_false _ _ Hunknown). reflexivity.
Qed.

Lemma unknown_model_is_rejected_witness :
  ~ In "cnn" Server.validModels /\
  fst (run (Server.predict "cnn" Sample.high_risk) Sample.all_up)
  = Return {| Server.status := 400;
              Server.body := Server.InvalidModel
                "Invalid model. Choose from: xgboost, randomforest, svm, logistic, neuralnetwork" |} /\
  calls (snd (run (Server.predict "cnn" Sample.high_risk) Sample.all_up)) = [] /\
  calls (snd (run (ServerRev.predict Js.toLowerCase "CNN" Sample.high_risk)
                  Sample.all_up)) = [].
Proof.
  assert (Hcnn : ~ In "cnn" Server.validModels).
  { simpl. intros H.
    repeat (destruct H as [H | H]; [discriminate |]). exact H. }
  split; [exact Hcnn |].
  destruct (unknown_model_is_rejected Js.toLowerCase "cnn" Sample.high_risk
              Sample.all_up) as [Hserver _].
  destruct (unknown_model_is_rejected Js.toLowerCase "CNN" Sample.high_risk
              Sample.all_up) as [_ Hrev].
  rewrite (Hserver Hcnn), (Hrev Hcnn). repeat split.
Defined.

(** The guarded save of [sendPredictionResponse]: whatever the database
    does, the answer is a 200 carrying the prediction; a failed write is
    logged and leaves the note ["Prediction saved locally only"]. *)
Lemma sendPredictionResponse_always_answers (h : ServerRev.Handled)
    (w : World) (t : Trace) :
  exists b t',
    ServerRev.sendPredictionResponse h w t
    = (Return {| ServerRev.status := 200; ServerRev.body := ServerRev.Predicted b |}, t') /\
    ServerRev.risk_score b
    = ServerRev.probability (ServerRev.predictionResult h) * 100 /\
    (forall d msg,
        In (Save d) t' -> ~ In (Save d) t -> database w d = SaveFailed msg ->
        ServerRev.note b = Some "Prediction saved locally only" /\
        In (Log ("Database error: " ++ msg)%string) t').
Proof.
  unfold ServerRev.sendPredictionResponse, try_catch, bind, record_save,
    console_error, emit, ret. cbv zeta.
  match goal with
  | |- context [database w ?d] => destruct (database w d) as [id | msg] eqn:Edb
  end.
  - eexists. eexists. split; [reflexivity |]. split; [reflexivity |].
    intros d msg Hin Hnot Hfail.
    apply in_app_or in Hin. destruct Hin as [Hin | [Hin | []]];
      [contradiction |].
    injection Hin as <-. rewrite Edb in Hfail. discriminate.
  - eexists. eexists. split; [reflexivity |]. split; [reflexivity |].
    intros d msg' Hin Hnot Hfail.
    apply in_app_or in Hin. destruct Hin as [Hin | [Hin | []]];
      [| discriminate].
    apply in_app_or in Hin. destruct Hin as [Hin | [Hin | []]];
      [contradiction |].
    injection Hin as <-. rewrite Edb in Hfail. injection Hfail as <-.
    split; [reflexivity |].
    apply in_or_app. right. left. reflexivity.
Qed.

(** The unguarded save of the route of [server.js]: for every valid model
    whose service answers, a rejected write turns the answer into a 500
    carrying the message of the database error. *)
Lemma server_route_propagates_save_failure (model : string)
    (patientData : PatientData) (w : World) (payload : Payload) (msg : string) :
  In model Server.validModels ->
  remote w 0 {| req_url := Js.get Server.modelServiceMap model;
                req_body := patientData;
                req_timeout := None |} = Responded payload ->
  (forall d, database w d = SaveFailed msg) ->
  fst (run (Server.predict model patientData) w)
  = Return {| Server.status := 500;
              Server.body := Server.PredictionFailed
                "Prediction failed" msg
                "Try using a different model or check your input data" |}.
Proof.
  intros Hvalid Hremote Hsave.
  assert (Hincl : Js.includes Server.validModels model = true)
    by now apply includes_spec.
  destruct (valid_model_has_service model Hvalid) as [url Hurl].
  rewrite Hurl in Hremote.
  unfold run, Server.predict, try_catch. rewrite Hincl. cbn [negb].
  rewrite Hurl. unfold bind, axios_post, ret, record_save.
  cbn [app calls List.length]. rewrite Hremote, Hsave.
  reflexivity.
Qed.

(** C5 at its failing input.  The xgboost service answers a well-formed
    prediction and the database rejects the write: the route of
    [server.js] answers 500 ["Prediction failed"], while the route built
    on [sendPredictionResponse] answers 200 with the prediction and the
    note. *)
Theorem save_failure_fails_the_server_route :
  fst (run (Server.predict "xgboost" Sample.high_risk) Sample.up_but_db_down)
  = Return {| Server.status := 500;
              Server.body := Server.PredictionFailed
                "Prediction failed" "buffering timed out"
                "Try using a different model or check your input data" |} /\
  exists b,
    fst (run (ServerRev.predict Js.toLowerCase "xgboost" Sample.high_risk)
             Sample.up_but_db_down)
    = Return {| ServerRev.status := 200; ServerRev.body := ServerRev.Predicted b |} /\
    ServerRev.risk_score b == 90 /\
    ServerRev.riskLevel (ServerRev.result b) = "HIGH RISK: CKD Detected" /\
    ServerRev.note b = Some "Prediction saved locally only".
Proof.
  split; [reflexivity |].
  eexists. split; [reflexivity |]. simpl. repeat split.
Qed.

End RouteProperties.

(* ================================================================== *)
(** ** Answers without a label *)

Section UnlabelledProperties.

(** C10 (amended).  On the route of [server.js], for a valid model whose
    service answers with a payload that has no [prediction] field, and
    provided the write of the record succeeds: the label is ["Unknown"]
    (it is what gets saved), and since the classification tests
    [prediction === "CKD"], the answer is a 200 reporting
    ["LOW RISK: No CKD"] with the low-risk recommendation.
    [getBestModelPrediction] defaults the label of such a payload to
    ["Unknown"] in the same way. *)
Theorem unlabelled_payload_reads_low_risk :
  forall (model : string) (patientData : PatientData) (w : World)
         (payload : Payload) (id : string),
    let saved :=
      {| doc_patient     := Some patientData;
         doc_predictedBy := Js.toUpperCase model;
         doc_prediction  := "Unknown";
         doc_probability := Js.or_num (data_probability payload) 0;
         doc_accuracy    :=
           Js.or_num (Js.get Server.modelPerformance model) (90 # 100);
         doc_riskScore   := None |} in
    In model Server.validModels ->
    remote w 0 {| req_url := Js.get Server.modelServiceMap model;
                  req_body := patientData;
                  req_timeout := None |} = Responded payload ->
    data_prediction payload = None ->
    database w saved = Saved id ->
    (exists b,
        fst (run (Server.predict model patientData) w)
        = Return {| Server.status := 200; Server.body := Server.Predicted b |} /\
        Server.result b = "LOW RISK: No CKD" /\
        Server.recommendation b = "Low risk. Continue annual checkups." /\
        Server.patientRecordId b = id) /\
    In (Save saved) (snd (run (Server.predict model patientData) w)) /\
    (forall R name fb,
        MlComparisonService.prediction
          (MlComparisonService.prediction_of R name payload fb) = "Unknown").
Proof.
  intros model patientData w payload id saved Hvalid Hremote Hlabel Hsave.
  assert (Hincl : Js.includes Server.validModels model = true)
    by now apply includes_spec.
  destruct (valid_model_has_service model Hvalid) as [url Hurl].
  rewrite Hurl in Hremote.
  assert (Hrun :
            run (Server.predict model patientData) w
            = (Return
                 {| Server.status := 200;
                    Server.body := Server.Predicted
                      {| Server.risk_score :=
                           Js.or_num (data_probability payload) 0 * 100;
                         Server.result := "LOW RISK: No CKD";
                         Server.shown :=
                           Server.confidence_or_fixed
                             (Js.or_num (data_confidence payload) 0)
                             (Js.or_num (data_probability payload) 0 * 100);
                         Server.model := model;
                         Server.accuracy :=
                           Js.toFixed1
                             (Js.or_num (Js.get Server.modelPerformance model)
                                        (90 # 100) * 100);
                         Server.patientRecordId := id;
                         Server.recommendation :=
                           "Low risk. Continue annual checkups." |} |},
               [Call {| req_url := Some url; req_body := patientData;
                        req_timeout := None |};
                Save saved])).
  { unfold run, Server.predict, try_catch. rewrite Hincl. cbn [negb].
    rewrite Hurl. unfold bind, axios_post, ret, record_save.
    cbn [app calls List.length]. rewrite Hremote.
    cbn [Server.prediction Server.probability Server.confidence].
    rewrite Hlabel. cbn [Js.or_str]. fold saved. rewrite Hsave.
    reflexivity. }
  rewrite Hrun. cbn [fst snd]. repeat split.
  - eexists. repeat split.
  - right. left. reflexivity.
  - intros R name fb. unfold MlComparisonService.prediction_of.
    cbn [MlComparisonService.prediction]. now rewrite Hlabel.
Qed.

Lemma unlabelled_payload_reads_low_risk_witness :
  In "svm" Server.validModels /\
  data_prediction Sample.unlabelled_payload = None /\
  exists b,
    fst (run (Server.predict "svm" Sample.high_risk) Sample.unlabelled)
    = Return {| Server.status := 200; Server.body := Server.Predicted b |} /\
    Server.result b = "LOW RISK: No CKD" /\
    Server.recommendation b = "Low risk. Continue annual checkups." /\
    Server.patientRecordId b = "652f1c0a9d3e".
Proof.
  assert (Hvalid : In "svm" Server.validModels)
    by (simpl; right; right; left; reflexivity).
  split; [exact Hvalid |]. split; [reflexivity |].
  apply (unlabelled_payload_reads_low_risk "svm" Sample.high_risk
           Sample.unlabelled Sample.unlabelled_payload "652f1c0a9d3e"
           Hvalid eq_refl eq_refl eq_refl).
Defined.

(** C10, as stated, fails: the service answers without a label but the
    write of the record fails, and the caller gets a 500, not a low-risk
    result. *)
Lemma unlabelled_payload_with_failed_save :
  remote Sample.unlabelled_db_down 0
    {| req_url := Js.get Server.modelServiceMap "svm";
       req_body := Sample.high_risk;
       req_timeout := None |} = Responded Sample.unlabelled_payload /\
  data_prediction Sample.unlabelled_payload = None /\
  fst (run (Server.predict "svm" Sample.high_risk) Sample.unlabelled_db_down)
  = Return {| Server.status := 500;
              Server.body := Server.PredictionFailed
                "Prediction failed" "buffering timed out"
                "Try using a different model or check your input data" |}.
Proof. repeat split. Qed.

End UnlabelledProperties.

(* ================================================================== *)
(** ** The local risk estimate *)

Section EstimatorProperties.

Lemma adjustment_cases (model : string) :
  let offset := Js.or_num (Js.get ServerRev.modelAdjustments model) 0 in
  offset = 2 # 100 \/ offset = 1 # 100 \/ offset = 15 # 1000 \/
  offset = 0 \/ offset = - (1 # 100).
Proof.
  cbv zeta. unfold ServerRev.modelAdjustments. cbn [Js.get].
  destruct (String.eqb "xgboost" model); [left; reflexivity |].
  destruct (String.eqb "randomforest" model); [right; left; reflexivity |].
  destruct (String.eqb "neuralnetwork" model);
    [right; right; left; reflexivity |].
  destruct (String.eqb "svm" model);
    [right; right; right; left; reflexivity |].
  destruct (String.eqb "logistic" model);
    [right; right; right; right; reflexivity |].
  right; right; right; left; reflexivity.
Qed.

Lemma min_le_r (a b : Q) : Js.min a b <= b.
Proof.
  unfold Js.min. destruct (Qle_bool a b) eqn:E.
  - now apply Qle_bool_iff.
  - apply Qle_refl.
Qed.

Lemma min_le_l (a b : Q) : Js.min a b <= a.
Proof.
  unfold Js.min. destruct (Qle_bool a b) eqn:E.
  - apply Qle_refl.
  - destruct (Qlt_le_dec b a) as [H | H]; [now apply Qlt_le_weak |].
    apply Qle_bool_iff in H. congruence.
Qed.

Lemma max_ge_l (a b : Q) : a <= Js.max a b.
Proof.
  unfold Js.max. destruct (Qle_bool a b) eqn:E.
  - now apply Qle_bool_iff.
  - apply Qle_refl.
Qed.

Lemma max_le (a b c : Q) : a <= c -> b <= c -> Js.max a b <= c.
Proof. intros Ha Hb. unfold Js.max. now destruct (Qle_bool a b). Qed.

(** Whatever the record and the model, the capped score is at most 95 and
    the estimate lies in [0.05, 0.95]. *)
Lemma estimate_bounds (patientData : PatientData) (model : string) :
  ServerRev.cappedRisk patientData <= 95 /\
  5 # 100 <= ServerRev.finalProbability patientData model /\
  ServerRev.finalProbability patientData model <= 95 # 100.
Proof.
  split; [apply min_le_r |]. unfold ServerRev.finalProbability. split.
  - apply max_ge_l.
  - apply max_le; [discriminate | apply min_le_l].
Qed.

(** C7.  For age=70, bp=150, creatinine=1.5, urea=50, glucose=130,
    specific gravity=1.005, albumin=3, sugar=2 the eight rules add up to
    15+10+25+15+10+10+10+5 = 100, which [Math.min] caps to 95; the
    per-model offset is added to 95/100 after that, and the sum is then
    clamped to [0.05, 0.95]: the estimate is 0.95, or 0.94 with the offset
    -0.01, and the label is ["CKD"] for every model. *)
Theorem high_risk_score_is_capped :
  ServerRev.accumulatedRisk Sample.high_risk = 15 + 10 + 25 + 15 + 10 + 10 + 10 + 5 /\
  ServerRev.accumulatedRisk Sample.high_risk = 100 /\
  ServerRev.cappedRisk Sample.high_risk = 95 /\
  forall model : string,
    ServerRev.offsetProbability Sample.high_risk model
    = 95 / 100 + Js.or_num (Js.get ServerRev.modelAdjustments model) 0 /\
    ServerRev.finalProbability Sample.high_risk model
    = Js.max (5 # 100)
        (Js.min (95 # 100) (ServerRev.offsetProbability Sample.high_risk model)) /\
    (ServerRev.finalProbability Sample.high_risk model == 95 # 100 \/
     ServerRev.finalProbability Sample.high_risk model == 94 # 100) /\
    ServerRev.prediction (ServerRev.mockPrediction Sample.high_risk model) = "CKD".
Proof.
  split; [reflexivity |]. split; [reflexivity |]. split; [reflexivity |].
  intros model.
  split; [reflexivity |]. split; [reflexivity |].
  unfold ServerRev.mockPrediction, ServerRev.finalProbability,
    ServerRev.offsetProbability. cbv zeta.
  destruct (adjustment_cases model) as [H | [H | [H | [H | H]]]];
    cbv zeta in H; rewrite H; split;
    solve [reflexivity | left; reflexivity | right; reflexivity].
Qed.

(** C8.  For age=50, bp=120, creatinine=1.0, urea=30, glucose=100 and the
    other fields absent (and likewise for a record with every field
    absent) no rule fires: the risk score is 0.  For every model, hence
    for each of the offsets +0.02, +0.01, +0.015, 0.0 and -0.01, the
    clamped probability is 0.05, which is at most 0.5, and the object
    returned by [generateMockPrediction] is labelled ["No CKD"]. *)
Theorem neutral_record_is_negative :
  ServerRev.accumulatedRisk Sample.neutral = 0 /\
  ServerRev.accumulatedRisk Sample.blank = 0 /\
  map snd ServerRev.modelAdjustments
  = [2 # 100; 1 # 100; 15 # 1000; 0; - (1 # 100)] /\
  forall (model : string) (w : World) (t : Trace),
    ServerRev.finalProbability Sample.neutral model = 5 # 100 /\
    ServerRev.finalProbability Sample.neutral model <= 1 # 2 /\
    ServerRev.finalProbability Sample.blank model = 5 # 100 /\
    fst (ServerRev.generateMockPrediction Sample.neutral model w t)
    = Return {| ServerRev.prediction := "No CKD";
                ServerRev.probability := 5 # 100;
                ServerRev.confidence := shown_fixed (Js.Tenths 50) |} /\
    ServerRev.prediction (ServerRev.mockPrediction Sample.blank model) = "No CKD".
Proof.
  split; [reflexivity |]. split; [reflexivity |]. split; [reflexivity |].
  intros model w t.
  assert (Hneutral : ServerRev.finalProbability Sample.neutral model = 5 # 100).
  { unfold ServerRev.finalProbability, ServerRev.offsetProbability.
    destruct (adjustment_cases model) as [H | [H | [H | [H | H]]]];
      cbv zeta in H; rewrite H; reflexivity. }
  assert (Hblank : ServerRev.finalProbability Sample.blank model = 5 # 100).
  { unfold ServerRev.finalProbability, ServerRev.offsetProbability.
    destruct (adjustment_cases model) as [H | [H | [H | [H | H]]]];
      cbv zeta in H; rewrite H; reflexivity. }
  split; [exact Hneutral |].
  split; [rewrite Hneutral; discriminate |].
  split; [exact Hblank |].
  rewrite generateMockPrediction_run. cbn [fst].
  unfold ServerRev.mockPrediction. cbv zeta.
  rewrite Hneutral, Hblank. split; reflexivity.
Qed.

End EstimatorProperties.

(* ================================================================== *)
(** ** Worked runs *)

Section WorkedRuns.

Import MlComparisonService.

(** The best model and the next one answer 503, the third in rank answers:
    three calls, in rank order, and the result is marked as a fallback. *)
Example cascade_stops_at_third :
  fst (run (getBestModelPrediction registry Sample.high_risk) Sample.third_answers)
  = Return {| model := "NEURALNETWORK";
              prediction := "CKD";
              probability := 9 # 10;
              confidence := 90;
              modelAccuracy := Some (96 # 100);
              fallback := true |} /\
  map req_url
      (calls (snd (run (getBestModelPrediction registry Sample.high_risk)
                       Sample.third_answers)))
  = [ Some "https://xgboost-service-ddal.onrender.com/predict";
      Some "https://randomforest-service.onrender.com/predict";
      Some "https://neuralnetwork-service.onrender.com/predict" ].
Proof. split; reflexivity. Qed.

(** The first two entries of [ML_MODELS] (logistic, randomforest) fail:
    five slots all the same, ordered by accuracy. *)
Example comparison_with_two_failures :
  exists report,
    fst (run (compareAllModels registry Sample.high_risk) Sample.third_answers)
    = Return report /\
    map Compare.rank report
    = [ ("Xgboost", 99 # 100); ("Randomforest", 98 # 100);
        ("Neuralnetwork", 96 # 100); ("Logistic", 95 # 100);
        ("Svm", 94 # 100) ] /\
    map Compare.succeeded report = [true; false; true; false; true].
Proof. eexists. repeat split. Qed.

(** With every service down the report still has its five slots. *)
Example comparison_with_all_down :
  exists report,
    fst (run (compareAllModels registry Sample.blank) Sample.all_down)
    = Return report /\
    List.length report = 5%nat /\
    map Compare.succeeded report = [false; false; false; false; false].
Proof. eexists. repeat split. Qed.

(** A remote failure on a fixed route of the later revision is answered
    from the local estimate. *)
Example fixed_route_falls_back :
  exists b,
    fst (run (ServerRev.fixed_route "svm" "SVM prediction failed" Sample.high_risk)
             Sample.all_slow)
    = Return {| ServerRev.status := 200; ServerRev.body := ServerRev.Predicted b |} /\
    ServerRev.risk_score b == 95 /\
    ServerRev.riskLevel (ServerRev.result b) = "HIGH RISK: CKD Detected".
Proof. eexists. repeat split. Qed.

End WorkedRuns.

(* ================================================================== *)
(** ** Further properties of the service *)

Section ServiceProperties.

Import MlComparisonService.

Lemma saves_app (t u : Trace) : saves (t ++ u) = saves t ++ saves u.
Proof.
  induction t as [| e rest IH]; simpl; [reflexivity |].
  destruct e; simpl; now rewrite IH.
Qed.

(** X1.  [getBestModelPrediction] answers with the first model of the
    cascade order whose call responds: if the calls to the models before
    [name] are rejected and the call to [name] responds with [data], the
    result is the prediction built from [data], the calls issued are those
    to the models up to [name], and nothing after [name] is called. *)
Theorem getBestModelPrediction_first_responder :
  forall (R : Registry) (patientData : PatientData) (w : World)
         (tried later : list string) (name : string) (data : Payload),
    Dispatch.cascadeOrder R = tried ++ name :: later ->
    all_rejected w 0 (map (Dispatch.requestFor R patientData) tried) ->
    remote w (List.length tried) (Dispatch.requestFor R patientData name)
    = Responded data ->
    fst (run (getBestModelPrediction R patientData) w)
    = Return (prediction_of R name data
                (match tried with [] => false | _ :: _ => true end)) /\
    calls (snd (run (getBestModelPrediction R patientData) w))
    = map (Dispatch.requestFor R patientData) (tried ++ [name]).
Proof.
  intros R patientData w tried later name data Horder Hall Hok.
  destruct (run (getBestModelPrediction R patientData) w) as [res t] eqn:Hrun.
  apply getBestModelPrediction_run in Hrun. simpl.
  destruct res as [p | e].
  - destruct Hrun as (tried' & name' & later' & data' & Horder' & Hcalls & Hall' & Hok' & Hp).
    destruct (first_responder_unique R patientData w _ _ _ _ _ _ _ _ _
                Horder Horder' Hall Hok Hall' Hok') as (-> & -> & -> & ->).
    split; [now rewrite Hp | exact Hcalls].
  - exfalso. destruct Hrun as (_ & _ & Hall').
    rewrite Horder in Hall'.
    exact (responder_not_rejected R patientData w _ _ _ _ Hok Hall').
Qed.

Lemma getBestModelPrediction_first_responder_witness :
  fst (run (getBestModelPrediction registry Sample.high_risk) Sample.third_answers)
  = Return (prediction_of registry "neuralnetwork" Sample.ckd_payload true) /\
  List.length
    (calls (snd (run (getBestModelPrediction registry Sample.high_risk)
                     Sample.third_answers))) = 3%nat.
Proof.
  destruct (getBestModelPrediction_first_responder registry Sample.high_risk
              Sample.third_answers ["xgboost"; "randomforest"] ["logistic"; "svm"]
              "neuralnetwork" Sample.ckd_payload) as [Hres Hcalls].
  - reflexivity.
  - intros [| [| [| i]]] r H; simpl in H; try discriminate;
      injection H as <-; reflexivity.
  - reflexivity.
  - split; [exact Hres |]. rewrite Hcalls. reflexivity.
Defined.

(** X2.  What a returned prediction says about its origin: [model] is the
    upper-cased name of a model of the cascade, [modelAccuracy] is that
    model's entry in [modelPerformance], and [fallback] is set exactly when
    the model is not [bestModel]. *)
Theorem getBestModelPrediction_origin :
  forall (R : Registry) (patientData : PatientData) (w : World)
         (p : BestPrediction),
    fst (run (getBestModelPrediction R patientData) w) = Return p ->
    exists name,
      In name (Dispatch.cascadeOrder R) /\
      model p = Js.toUpperCase name /\
      modelAccuracy p = Js.get (modelPerformance R) name /\
      fallback p = negb (String.eqb name (bestModel R)).
Proof.
  intros R patientData w p Hp.
  destruct (run (getBestModelPrediction R patientData) w) as [res t] eqn:Hrun.
  apply getBestModelPrediction_run in Hrun. simpl in Hp. subst res.
  destruct Hrun as (tried & name & later & data & Horder & _ & _ & _ & ->).
  exists name. split.
  - rewrite Horder. apply in_or_app. right. left. reflexivity.
  - split; [reflexivity |]. split; [reflexivity |]. simpl.
    unfold Dispatch.cascadeOrder in Horder.
    destruct tried as [| first tried].
    + simpl in Horder. injection Horder as <- _.
      now rewrite String.eqb_refl.
    + simpl in Horder. injection Horder as _ Hrest.
      assert (Hin : In name
                (filter (fun n => negb (String.eqb n (bestModel R)))
                        (fallbackModels R))).
      { rewrite Hrest. apply in_or_app. right. left. reflexivity. }
      apply filter_In in Hin. symmetry. apply Hin.
Qed.

Lemma getBestModelPrediction_origin_witness :
  exists name,
    In name (Dispatch.cascadeOrder registry) /\
    Js.toUpperCase name = "NEURALNETWORK" /\
    Js.get (modelPerformance registry) name = Some (96 # 100) /\
    negb (String.eqb name (bestModel registry)) = true.
Proof.
  destruct (getBestModelPrediction_origin registry Sample.high_risk
              Sample.third_answers _ eq_refl)
    as (name & Hin & Hmodel & Hacc & Hfb).
  exists name. simpl in Hmodel, Hacc, Hfb.
  repeat split; [exact Hin | now symmetry | now symmetry | now symmetry].
Defined.

(** X3.  With the tables of the service, a request makes at most five
    remote calls, each to a configured URL and each carrying the caller's
    record unchanged. *)
Theorem getBestModelPrediction_calls_bounded :
  forall (patientData : PatientData) (w : World),
    let issued := calls (snd (run (getBestModelPrediction registry patientData) w)) in
    (List.length issued <= 5)%nat /\
    Forall (fun r => (exists url, req_url r = Some url) /\
                     req_body r = patientData) issued.
Proof.
  intros patientData w issued. subst issued.
  destruct (run (getBestModelPrediction registry patientData) w) as [res t] eqn:Hrun.
  apply getBestModelPrediction_run in Hrun. simpl snd.
  assert (Hall : Forall (fun r => (exists url, req_url r = Some url) /\
                                  req_body r = patientData)
                   (map (Dispatch.requestFor registry patientData)
                        (Dispatch.cascadeOrder registry))).
  { change (Dispatch.cascadeOrder registry)
      with ["xgboost"; "randomforest"; "neuralnetwork"; "logistic"; "svm"].
    repeat (constructor; [split; [eexists; reflexivity | reflexivity] |]).
    constructor. }
  assert (Hprefix : exists untried,
             map (Dispatch.requestFor registry patientData)
                 (Dispatch.cascadeOrder registry) = calls t ++ untried).
  { destruct res as [p | e].
    - destruct Hrun as (tried & name & later & data & Horder & Hcalls & _).
      exists (map (Dispatch.requestFor registry patientData) later).
      rewrite Hcalls, Horder, <- map_app, <- app_assoc. reflexivity.
    - destruct Hrun as (_ & Hcalls & _). exists []. now rewrite app_nil_r. }
  destruct Hprefix as [untried Hprefix]. split.
  - apply (f_equal (@List.length Request)) in Hprefix.
    rewrite length_map, length_app in Hprefix.
    change (List.length (Dispatch.cascadeOrder registry)) with 5%nat in Hprefix.
    lia.
  - rewrite Hprefix in Hall. apply Forall_app in Hall. apply Hall.
Qed.

(** X4.  [compareAllModels] posts to every service of [ML_MODELS] exactly
    once, in the order of the table, whatever the services answer: its
    trace consists of these calls and nothing else, and a failure of one
    call does not keep a later call from being made. *)
Theorem compareAllModels_calls_every_service :
  forall (R : Registry) (patientData : PatientData) (w w' : World),
    snd (run (compareAllModels R patientData) w)
    = map Call (map (Compare.requestFor patientData) (ML_MODELS R)) /\
    map req_url (calls (snd (run (compareAllModels R patientData) w)))
    = map (fun entry => Some (snd entry)) (ML_MODELS R) /\
    snd (run (compareAllModels R patientData) w)
    = snd (run (compareAllModels R patientData) w').
Proof.
  intros R patientData w w'. rewrite !compareAllModels_run. simpl snd.
  split; [reflexivity |]. split; [| reflexivity].
  rewrite calls_map_call, map_map. reflexivity.
Qed.

End ServiceProperties.

(* ================================================================== *)
(** ** Ties in the comparison report *)

Section SortStable.

Context {A : Type}.
Variable key : A -> Q.
Variable k : Q.

Local Abbreviation descending := (fun a b : A => key b - key a).
Local Abbreviation at_k := (fun a : A => Qeq_bool (key a) k).

Lemma insert_filter_tie (x : A) (l : list A) :
  filter at_k (Js.insert descending x l)
  = if at_k x then x :: filter at_k l else filter at_k l.
Proof.
  induction l as [| y rest IH]; simpl.
  - destruct (Qeq_bool (key x) k); reflexivity.
  - destruct (Qle_bool (key y - key x) 0) eqn:E; simpl.
    + destruct (Qeq_bool (key x) k); reflexivity.
    + rewrite IH.
      destruct (Qeq_bool (key x) k) eqn:Ex, (Qeq_bool (key y) k) eqn:Ey;
        try reflexivity.
      exfalso. apply Qeq_bool_iff in Ex, Ey.
      assert (Hle : key y - key x <= 0) by lra.
      apply Qle_bool_iff in Hle. congruence.
Qed.

Lemma sort_filter_tie (l : list A) :
  filter at_k (Js.sort descending l) = filter at_k l.
Proof.
  induction l as [| x rest IH]; simpl; [reflexivity |].
  rewrite insert_filter_tie, IH. reflexivity.
Qed.

End SortStable.

Section ReportProperties.

Import MlComparisonService.

Lemma Qeq_bool_or_num (a q : Q) :
  Qeq_bool (Js.or_num (Some a) 0) q = Qeq_bool a q.
Proof.
  pose proof (or_num_some_zero a) as H.
  destruct (Qeq_bool a q) eqn:E.
  - apply Qeq_bool_iff in E. apply Qeq_bool_iff. now rewrite H.
  - destruct (Qeq_bool (Js.or_num (Some a) 0) q) eqn:E'; [| reflexivity].
    apply Qeq_bool_iff in E'. rewrite H in E'.
    apply Qeq_bool_iff in E'. congruence.
Qed.

Lemma slots_filter_models (R : Registry) (patientData : PatientData)
    (w : World) (q : Q) (entries : list (string * string)) :
  forall n,
    map entry_model
        (filter (fun e => Qeq_bool (entry_accuracy e) q)
                (Compare.slots R patientData w n entries))
    = map (fun entry => Js.capitalize (fst entry))
          (filter (fun entry =>
                     Qeq_bool (Js.or_num (Js.get (modelPerformance R) (fst entry)) 0) q)
                  entries).
Proof.
  induction entries as [| entry rest IH]; intros n; simpl; [reflexivity |].
  destruct (Qeq_bool _ q); simpl; now rewrite IH.
Qed.

(** X5.  Ties keep the order of the table: for every accuracy value, the
    models reported with that accuracy appear in the report in the order
    in which [ML_MODELS] lists them (a model without an entry in
    [modelPerformance] counts with accuracy 0). *)
Theorem compareAllModels_ties_keep_table_order :
  forall (R : Registry) (patientData : PatientData) (w : World) (q : Q),
  exists report : list Entry,
    fst (run (compareAllModels R patientData) w) = Return report /\
    map entry_model (filter (fun e => Qeq_bool (entry_accuracy e) q) report)
    = map (fun entry => Js.capitalize (fst entry))
          (filter (fun entry =>
                     Qeq_bool (Js.or_num (Js.get (modelPerformance R) (fst entry)) 0) q)
                  (ML_MODELS R)).
Proof.
  intros R patientData w q. rewrite compareAllModels_run. simpl fst.
  eexists. split; [reflexivity |].
  rewrite <- (slots_filter_models R patientData w q (ML_MODELS R) 0).
  f_equal.
  assert (Hext : forall e : Entry,
             Qeq_bool (entry_accuracy e) q
             = Qeq_bool (Js.or_num (Some (entry_accuracy e)) 0) q)
    by (intros e; symmetry; apply Qeq_bool_or_num).
  rewrite (filter_ext _ _ Hext (Js.sort by_accuracy _)).
  rewrite (filter_ext _ _ Hext (Compare.slots R patientData w 0 (ML_MODELS R))).
  apply (sort_filter_tie (fun e => Js.or_num (Some (entry_accuracy e)) 0) q).
Qed.

(** The two models of equal accuracy are reported in the order of
    [ML_MODELS] (alpha, beta), not in that of [modelPerformance]; the
    model without an accuracy comes last with 0. *)
Example tied_models_in_table_order :
  exists report,
    fst (run (compareAllModels MoreSamples.tied Sample.blank) Sample.all_up)
    = Return report /\
    map Compare.rank report
    = [("Alpha", 9 # 10); ("Beta", 9 # 10); ("Gamma", 0)].
Proof. eexists. split; reflexivity. Qed.

Lemma report_rank_fixed (R : Registry) (patientData : PatientData)
    (w w' : World) (entries : list (string * string)) :
  map Compare.rank (Js.sort by_accuracy (Compare.slots R patientData w 0 entries))
  = map Compare.rank (Js.sort by_accuracy (Compare.slots R patientData w' 0 entries)).
Proof.
  set (cmp := fun a b : string * Q =>
                Js.or_num (Some (snd b)) 0 - Js.or_num (Some (snd a)) 0).
  rewrite !(sort_map Compare.rank by_accuracy cmp) by reflexivity.
  now rewrite !slots_rank.
Qed.

Lemma report_sorted (l : list Entry) :
  StronglySorted Compare.ranks_before (Js.sort by_accuracy l).
Proof.
  apply StronglySorted_impl
    with (P := fun a b => Js.or_num (Some (entry_accuracy b)) 0
                          <= Js.or_num (Some (entry_accuracy a)) 0).
  - intros a b Hab. unfold Compare.ranks_before.
    now rewrite !or_num_some_zero in Hab.
  - apply (sort_descending (fun e => Js.or_num (Some (entry_accuracy e)) 0)).
Qed.

(** X6.  [compareModels] never answers with an error.  For a table that
    is not empty, [bestModel] is a slot of the comparison whose accuracy
    no other slot exceeds, and which model it names does not depend on
    the answers of the services: the best-ranked model is reported as
    [bestModel] even when its own call failed. *)
Theorem compareModels_best_is_top_ranked :
  forall (R : Registry) (patientData : PatientData) (w : World),
    ML_MODELS R <> [] ->
    exists table best,
      fst (run (Controller.compareModels R patientData) w)
      = Return {| Controller.status := 200;
                  Controller.body := Controller.Compared table (Some best) |} /\
      List.length table = List.length (ML_MODELS R) /\
      In best table /\
      (forall e, In e table -> entry_accuracy e <= entry_accuracy best) /\
      (forall w' : World,
          exists table' best',
            fst (run (Controller.compareModels R patientData) w')
            = Return {| Controller.status := 200;
                        Controller.body := Controller.Compared table' (Some best') |} /\
            Compare.rank best' = Compare.rank best).
Proof.
  intros R patientData w Hnonempty.
  assert (Hrun : forall v,
             run (Controller.compareModels R patientData) v
             = (Return {| Controller.status := 200;
                          Controller.body :=
                            Controller.Compared
                              (Js.sort by_accuracy
                                 (Compare.slots R patientData v 0 (ML_MODELS R)))
                              (nth_error
                                 (Js.sort by_accuracy
                                    (Compare.slots R patientData v 0 (ML_MODELS R)))
                                 0) |},
                map Call (map (Compare.requestFor patientData) (ML_MODELS R)))).
  { intros v. unfold run, Controller.compareModels, try_catch, bind.
    pose proof (compareAllModels_run R patientData v) as H.
    unfold run in H. rewrite H. reflexivity. }
  assert (Hlen : forall v,
             List.length (Js.sort by_accuracy
                            (Compare.slots R patientData v 0 (ML_MODELS R)))
             = List.length (ML_MODELS R))
    by (intros v; now rewrite sort_length, slots_length).
  pose proof (report_sorted (Compare.slots R patientData w 0 (ML_MODELS R)))
    as Hsorted.
  pose proof (report_rank_fixed R patientData w) as Hrank.
  rewrite Hrun. simpl fst.
  pose proof (Hlen w) as Hlenw.
  destruct (Js.sort by_accuracy (Compare.slots R patientData w 0 (ML_MODELS R)))
    as [| best rest] eqn:Htable.
  - exfalso. simpl in Hlenw. destruct (ML_MODELS R); [now apply Hnonempty | discriminate].
  - exists (best :: rest), best. simpl nth_error.
    split; [reflexivity |]. split; [exact Hlenw |]. split; [now left |]. split.
    + intros e [<- | He]; [apply Qle_refl |].
      apply StronglySorted_inv in Hsorted. destruct Hsorted as [_ Hall].
      rewrite Forall_forall in Hall. now apply Hall.
    + intros w'. rewrite Hrun. simpl fst.
      specialize (Hrank w' (ML_MODELS R)). rewrite Htable in Hrank.
      destruct (Js.sort by_accuracy (Compare.slots R patientData w' 0 (ML_MODELS R)))
        as [| best' rest']; cbn [map] in Hrank; [discriminate |].
      exists (best' :: rest'), best'. split; [reflexivity |].
      congruence.
Qed.

Lemma compareModels_best_is_top_ranked_witness :
  exists table best,
    fst (run (Controller.compareModels registry Sample.high_risk) Sample.all_down)
    = Return {| Controller.status := 200;
                Controller.body := Controller.Compared table (Some best) |} /\
    Compare.rank best = ("Xgboost", 99 # 100) /\
    Compare.succeeded best = false.
Proof.
  destruct (compareModels_best_is_top_ranked registry Sample.high_risk
              Sample.all_down) as (table & best & Hrun & _).
  - discriminate.
  - exists table, best. split; [exact Hrun |].
    vm_compute in Hrun. injection Hrun as _ <-.
    split; reflexivity.
Defined.

End ReportProperties.

(* ================================================================== *)
(** ** predictCKD *)

Section ControllerProperties.

Import MlComparisonService.

Lemma saves_snoc_call (t : Trace) (r : Request) : saves (t ++ [Call r]) = saves t.
Proof. rewrite saves_app. simpl. apply app_nil_r. Qed.

Lemma saves_snoc_log (t : Trace) (line : string) : saves (t ++ [Log line]) = saves t.
Proof. rewrite saves_app. simpl. apply app_nil_r. Qed.

Lemma saves_snoc_save (t : Trace) (d : Document) : saves (t ++ [Save d]) = saves t ++ [d].
Proof. now rewrite saves_app. Qed.

(** The service never writes a record. *)
Lemma cascade_saves (R : Registry) (patientData : PatientData)
    (models : list string) :
  forall (w : World) (t : Trace),
    saves (snd (cascade R patientData models w t)) = saves t.
Proof.
  induction models as [| name rest IH]; intros w t; simpl.
  - reflexivity.
  - destruct (String.eqb name (bestModel R)); [apply IH |].
    unfold bind. rewrite attempt_run.
    destruct (remote w _ _) as [data | kind msg].
    + unfold ret. simpl. apply saves_snoc_call.
    + rewrite IH, saves_snoc_log. apply saves_snoc_call.
Qed.

Lemma getBestModelPrediction_saves (R : Registry) (patientData : PatientData)
    (w : World) :
  saves (snd (run (getBestModelPrediction R patientData) w)) = [].
Proof.
  unfold run, getBestModelPrediction, try_catch, bind, axios_post, ret,
    console_error, emit. simpl.
  destruct (remote w 0%nat _) as [data | kind msg]; [reflexivity |].
  now rewrite cascade_saves.
Qed.

(** With the tables of the service the accuracy of a returned prediction
    is always a number. *)
Lemma modelAccuracy_defined (patientData : PatientData) (w : World)
    (p : BestPrediction) :
  fst (run (getBestModelPrediction registry patientData) w) = Return p ->
  exists q, modelAccuracy p = Some q.
Proof.
  intros Hp.
  destruct (run (getBestModelPrediction registry patientData) w) as [res t] eqn:Hrun.
  apply getBestModelPrediction_run in Hrun. simpl in Hp. subst res.
  destruct Hrun as (tried & name & later & data & Horder & _ & _ & _ & ->).
  assert (Hin : In name (Dispatch.cascadeOrder registry))
    by (rewrite Horder; apply in_or_app; right; left; reflexivity).
  change (Dispatch.cascadeOrder registry)
    with ["xgboost"; "randomforest"; "neuralnetwork"; "logistic"; "svm"] in Hin.
  simpl in Hin.
  repeat (destruct Hin as [<- | Hin]; [eexists; reflexivity |]).
  contradiction.
Qed.

(** How [predictCKD] goes on from the result of the service. *)
Lemma predictCKD_run (patientData : PatientData) (w : World) :
  run (Controller.predictCKD patientData) w =
  match run (getBestModelPrediction registry patientData) w with
  | (Return result, t) =>
      let record :=
        {| doc_patient     := Some patientData;
           doc_predictedBy := model result;
           doc_prediction  := prediction result;
           doc_probability := probability result;
           doc_accuracy    := Controller.accuracyOfModel result;
           doc_riskScore   := None |} in
      match database w record with
      | Saved id =>
          (Return
             {| Controller.status := 200;
                Controller.body :=
                  Controller.Completed "Early-stage CKD prediction completed"
                    {| Controller.riskLevel := prediction result;
                       Controller.confidence := probability result;
                       Controller.modelUsed := model result;
                       Controller.shownAccuracy :=
                         option_map (fun a => Controller.toFixed2 (a * 100))
                                    (modelAccuracy result);
                       Controller.recommendation :=
                         if String.eqb (prediction result) "CKD"
                         then "High risk detected. Consult nephrologist immediately."
                         else "Low risk. Continue annual checkups.";
                       Controller.patientRecordId := id |} |},
           t ++ [Save record])
      | SaveFailed msg =>
          (Return {| Controller.status := 500;
                     Controller.body :=
                       Controller.PredictionFailed "Prediction failed" msg |},
           t ++ [Save record])
      end
  | (Throw e, t) =>
      (Return {| Controller.status := 500;
                 Controller.body :=
                   Controller.PredictionFailed "Prediction failed" (error_message e) |},
       t)
  end.
Proof.
  unfold run, Controller.predictCKD, try_catch, bind at 1.
  destruct (getBestModelPrediction registry patientData w []) as [[result | e] t];
    [| reflexivity].
  unfold bind, record_save, ret. cbv zeta.
  destruct (database w _); reflexivity.
Qed.

(** X7.  When every remote call is rejected, [predictCKD] answers 500
    ["Prediction failed"] with the error ["All model services
    unavailable"], and no record is written. *)
Theorem predictCKD_all_services_down :
  forall (patientData : PatientData) (w : World),
    (forall n r, responds w n r = false) ->
    fst (run (Controller.predictCKD patientData) w)
    = Return {| Controller.status := 500;
                Controller.body :=
                  Controller.PredictionFailed "Prediction failed"
                    "All model services unavailable" |} /\
    saves (snd (run (Controller.predictCKD patientData) w)) = [].
Proof.
  intros patientData w Hdown. rewrite predictCKD_run.
  pose proof (getBestModelPrediction_saves registry patientData w) as Hsaves.
  destruct (run (getBestModelPrediction registry patientData) w) as [res t] eqn:Hrun.
  apply getBestModelPrediction_run in Hrun. simpl in Hsaves.
  destruct res as [p | e].
  - exfalso.
    destruct Hrun as (tried & name & later & data & _ & _ & _ & Hok & _).
    specialize (Hdown (List.length tried)
                      (Dispatch.requestFor registry patientData name)).
    unfold responds in Hdown. rewrite Hok in Hdown. discriminate.
  - destruct Hrun as (-> & _). simpl. now split.
Qed.

Lemma predictCKD_all_services_down_witness :
  (forall n r, responds MoreSamples.all_down_db_down n r = false) /\
  fst (run (Controller.predictCKD Sample.high_risk) MoreSamples.all_down_db_down)
  = Return {| Controller.status := 500;
              Controller.body :=
                Controller.PredictionFailed "Prediction failed"
                  "All model services unavailable" |} /\
  saves (snd (run (Controller.predictCKD Sample.high_risk)
                  MoreSamples.all_down_db_down)) = [].
Proof.
  split; [intros n r; reflexivity |].
  apply (predictCKD_all_services_down Sample.high_risk MoreSamples.all_down_db_down).
  intros n r. reflexivity.
Defined.

(** X8.  When the first model of the cascade order whose call responds is
    [name], and the write of the record succeeds, [predictCKD] answers 200:
    [modelUsed] is [name] in upper case, [riskLevel] is the label of the
    answer (["Unknown"] when it has none), the recommendation is the
    high-risk one exactly when the label is ["CKD"], the accuracy shown is
    a number, and the one record written names the same model and label. *)
Theorem predictCKD_reports_first_responder :
  forall (patientData : PatientData) (w : World)
         (tried later : list string) (name id : string) (data : Payload),
    Dispatch.cascadeOrder registry = tried ++ name :: later ->
    all_rejected w 0 (map (Dispatch.requestFor registry patientData) tried) ->
    remote w (List.length tried) (Dispatch.requestFor registry patientData name)
    = Responded data ->
    (forall d, database w d = Saved id) ->
    exists b,
      fst (run (Controller.predictCKD patientData) w)
      = Return {| Controller.status := 200;
                  Controller.body :=
                    Controller.Completed "Early-stage CKD prediction completed" b |} /\
      Controller.modelUsed b = Js.toUpperCase name /\
      Controller.riskLevel b = Js.or_str (data_prediction data) "Unknown" /\
      (Controller.recommendation b
       = "High risk detected. Consult nephrologist immediately."
       <-> data_prediction data = Some "CKD") /\
      Controller.shownAccuracy b <> None /\
      Controller.patientRecordId b = id /\
      map (fun d => (doc_predictedBy d, doc_prediction d))
          (saves (snd (run (Controller.predictCKD patientData) w)))
      = [(Controller.modelUsed b, Controller.riskLevel b)].
Proof.
  intros patientData w tried later name id data Horder Hall Hok Hdb.
  rewrite predictCKD_run.
  pose proof (getBestModelPrediction_saves registry patientData w) as Hsaves.
  pose proof (modelAccuracy_defined patientData w) as Hacc.
  destruct (run (getBestModelPrediction registry patientData) w) as [res t] eqn:Hrun.
  apply getBestModelPrediction_run in Hrun. simpl in Hsaves, Hacc.
  destruct res as [p | e].
  - destruct Hrun as (tried' & name' & later' & data' & Horder' & _ & Hall' & Hok' & Hp).
    destruct (first_responder_unique registry patientData w _ _ _ _ _ _ _ _ _
                Horder Horder' Hall Hok Hall' Hok') as (-> & -> & -> & ->).
    destruct (Hacc p eq_refl) as [q Hq].
    cbv zeta. rewrite Hdb. eexists. split; [reflexivity |].
    cbn [fst snd Controller.modelUsed Controller.riskLevel
         Controller.recommendation Controller.shownAccuracy
         Controller.patientRecordId].
    rewrite saves_snoc_save, Hsaves, Hq, Hp.
    cbn [prediction model prediction_of app map doc_predictedBy doc_prediction
         option_map].
    split; [reflexivity |]. split; [reflexivity |]. split.
    + split.
      * intros H. destruct (data_prediction data) as [[| c s] |];
          cbn [Js.or_str] in H; try discriminate.
        destruct (String.eqb (String c s) "CKD") eqn:E; [| discriminate].
        apply String.eqb_eq in E. now rewrite E.
      * intros ->. reflexivity.
    + split; [discriminate |]. split; reflexivity.
  - exfalso. destruct Hrun as (_ & _ & Hall').
    rewrite Horder in Hall'.
    exact (responder_not_rejected registry patientData w _ _ _ _ Hok Hall').
Qed.

Lemma predictCKD_reports_first_responder_witness :
  exists b,
    fst (run (Controller.predictCKD Sample.high_risk) Sample.third_answers)
    = Return {| Controller.status := 200;
                Controller.body :=
                  Controller.Completed "Early-stage CKD prediction completed" b |} /\
    Controller.modelUsed b = "NEURALNETWORK" /\
    Controller.riskLevel b = "CKD" /\
    Controller.patientRecordId b = "652f1c0a9d3e".
Proof.
  destruct (predictCKD_reports_first_responder Sample.high_risk
              Sample.third_answers ["xgboost"; "randomforest"] ["logistic"; "svm"]
              "neuralnetwork" "652f1c0a9d3e" Sample.ckd_payload)
    as (b & Hrun & Hmodel & Hlevel & _ & _ & Hid & _).
  - reflexivity.
  - intros [| [| [| i]]] r H; simpl in H; try discriminate;
      injection H as <-; reflexivity.
  - reflexivity.
  - intros d. reflexivity.
  - exists b. repeat split; assumption.
Defined.

(** X9.  A prediction that the service returned is lost when the write of
    the record is rejected: [predictCKD] then answers 500 with the message
    of the database error, although a model had answered. *)
Theorem predictCKD_save_failure_is_fatal :
  forall (patientData : PatientData) (w : World) (p : BestPrediction)
         (msg : string),
    fst (run (getBestModelPrediction registry patientData) w) = Return p ->
    (forall d, database w d = SaveFailed msg) ->
    fst (run (Controller.predictCKD patientData) w)
    = Return {| Controller.status := 500;
                Controller.body :=
                  Controller.PredictionFailed "Prediction failed" msg |}.
Proof.
  intros patientData w p msg Hp Hdb. rewrite predictCKD_run.
  destruct (run (getBestModelPrediction registry patientData) w) as [res t].
  simpl in Hp. subst res. cbv zeta. now rewrite Hdb.
Qed.

Lemma predictCKD_save_failure_is_fatal_witness :
  fst (run (getBestModelPrediction registry Sample.high_risk) Sample.up_but_db_down)
  = Return (prediction_of registry "xgboost" Sample.ckd_payload false) /\
  fst (run (Controller.predictCKD Sample.high_risk) Sample.up_but_db_down)
  = Return {| Controller.status := 500;
              Controller.body :=
                Controller.PredictionFailed "Prediction failed"
                  "buffering timed out" |}.
Proof.
  split; [reflexivity |].
  apply (predictCKD_save_failure_is_fatal Sample.high_risk Sample.up_but_db_down
           (prediction_of registry "xgboost" Sample.ckd_payload false)
           "buffering timed out").
  - reflexivity.
  - intros d. reflexivity.
Defined.

End ControllerProperties.

(* ================================================================== *)
(** ** The route of server.js, case by case *)

Section ServerRouteProperties.

(** The three ways a request for a valid model can go. *)
Lemma server_predict_run (model url : string) (patientData : PatientData)
    (w : World) :
  Js.includes Server.validModels model = true ->
  Js.get Server.modelServiceMap model = Some url ->
  let r := {| req_url := Some url; req_body := patientData;
              req_timeout := None |} in
  run (Server.predict model patientData) w =
  match remote w 0 r with
  | Responded data =>
      let label := Js.or_str (data_prediction data) "Unknown" in
      let probability := Js.or_num (data_probability data) 0 in
      let accuracy := Js.or_num (Js.get Server.modelPerformance model) (90 # 100) in
      let record :=
        {| doc_patient     := Some patientData;
           doc_predictedBy := Js.toUpperCase model;
           doc_prediction  := label;
           doc_probability := probability;
           doc_accuracy    := accuracy;
           doc_riskScore   := None |} in
      match database w record with
      | Saved id =>
          (Return
             {| Server.status := 200;
                Server.body := Server.Predicted
                  {| Server.risk_score := probability * 100;
                     Server.result :=
                       if String.eqb label "CKD"
                       then "HIGH RISK: CKD Detected" else "LOW RISK: No CKD";
                     Server.shown :=
                       Server.confidence_or_fixed
                         (Js.or_num (data_confidence data) 0) (probability * 100);
                     Server.model := model;
                     Server.accuracy := Js.toFixed1 (accuracy * 100);
                     Server.patientRecordId := id;
                     Server.recommendation :=
                       if String.eqb label "CKD"
                       then "High risk detected. Consult nephrologist immediately."
                       else "Low risk. Continue annual checkups." |} |},
           [Call r; Save record])
      | SaveFailed msg =>
          (Return {| Server.status := 500;
                     Server.body := Server.PredictionFailed "Prediction failed" msg
                       "Try using a different model or check your input data" |},
           [Call r; Save record;
            Log ("Error in " ++ model ++ "/predict: " ++ msg)%string])
      end
  | Rejected _ msg =>
      (Return {| Server.status := 500;
                 Server.body := Server.PredictionFailed "Prediction failed" msg
                   "Try using a different model or check your input data" |},
       [Call r; Log ("Error in " ++ model ++ "/predict: " ++ msg)%string])
  end.
Proof.
  intros Hincl Hurl r.
  unfold run, Server.predict, try_catch. rewrite Hincl. cbn [negb].
  rewrite Hurl. unfold bind, axios_post, ret, record_save, console_error, emit.
  cbn [app calls List.length]. fold r.
  destruct (remote w 0%nat r) as [data | kind msg]; [| reflexivity].
  cbn [Server.prediction Server.probability Server.confidence]. cbv zeta.
  destruct (database w _); reflexivity.
Qed.

(** X10.  On the route of [server.js] a rejected call to the model's
    service is not recovered: for every valid model the answer is 500
    ["Prediction failed"] carrying the message of the remote error, the
    one call made is the rejected one (no other model is tried and no
    local estimate is made), and no record is written. *)
Theorem server_route_remote_failure :
  forall (model : string) (patientData : PatientData) (w : World)
         (kind : FailureKind) (msg : string),
    In model Server.validModels ->
    remote w 0 {| req_url := Js.get Server.modelServiceMap model;
                  req_body := patientData;
                  req_timeout := None |} = Rejected kind msg ->
    fst (run (Server.predict model patientData) w)
    = Return {| Server.status := 500;
                Server.body := Server.PredictionFailed "Prediction failed" msg
                  "Try using a different model or check your input data" |} /\
    calls (snd (run (Server.predict model patientData) w))
    = [ {| req_url := Js.get Server.modelServiceMap model;
           req_body := patientData;
           req_timeout := None |} ] /\
    saves (snd (run (Server.predict model patientData) w)) = [].
Proof.
  intros model patientData w kind msg Hvalid Hremote.
  assert (Hincl : Js.includes Server.validModels model = true)
    by now apply includes_spec.
  destruct (valid_model_has_service model Hvalid) as [url Hurl].
  rewrite Hurl in *.
  rewrite (server_predict_run model url patientData w Hincl Hurl).
  cbv zeta. rewrite Hremote. repeat split.
Qed.

Lemma server_route_remote_failure_witness :
  In "logistic" Server.validModels /\
  fst (run (Server.predict "logistic" Sample.neutral) Sample.all_slow)
  = Return {| Server.status := 500;
              Server.body := Server.PredictionFailed "Prediction failed"
                "timeout exceeded"
                "Try using a different model or check your input data" |} /\
  saves (snd (run (Server.predict "logistic" Sample.neutral) Sample.all_slow)) = [].
Proof.
  assert (Hvalid : In "logistic" Server.validModels)
    by (simpl; tauto).
  split; [exact Hvalid |].
  destruct (server_route_remote_failure "logistic" Sample.neutral Sample.all_slow
              TimedOut "timeout exceeded" Hvalid eq_refl) as (Hres & _ & Hsaves).
  split; assumption.
Defined.

(** X11.  Whatever the identifier, the record and the world, a request to
    the route of [server.js] makes at most one remote call, to the service
    of the model asked for and without a time-out, and writes at most one
    record: every valid model has a service of its own, so the branch that
    would hand over to [getBestModelPrediction] is never taken. *)
Theorem server_route_single_call :
  forall (model : string) (patientData : PatientData) (w : World),
    let t := snd (run (Server.predict model patientData) w) in
    (List.length (calls t) <= 1)%nat /\
    Forall (fun r => req_url r = Js.get Server.modelServiceMap model /\
                     req_url r <> None /\
                     req_body r = patientData /\
                     req_timeout r = None) (calls t) /\
    (List.length (saves t) <= List.length (calls t))%nat.
Proof.
  intros model patientData w t. subst t.
  destruct (Js.includes Server.validModels model) eqn:Hincl.
  - assert (Hvalid : In model Server.validModels) by now apply includes_spec.
    destruct (valid_model_has_service model Hvalid) as [url Hurl].
    rewrite (server_predict_run model url patientData w Hincl Hurl).
    cbv zeta. rewrite Hurl.
    destruct (remote w 0%nat _) as [data | kind msg].
    + destruct (database w _); cbn [snd calls saves List.length];
        repeat split; auto; repeat constructor; discriminate.
    + cbn [snd calls saves List.length].
      repeat split; auto; repeat constructor; discriminate.
  - unfold run, Server.predict, try_catch. rewrite Hincl.
    cbn [negb ret snd calls saves List.length]. repeat split; auto.
Qed.

(** X12.  On the route of [server.js] the risk level follows the label
    alone: for a valid model whose service answers and whose record is
    written, the answer is 200 and says ["HIGH RISK: CKD Detected"] (with
    the high-risk recommendation) exactly when the answer's [prediction]
    is the string ["CKD"]; the risk score is 100 times the answer's
    probability, 0 when there is none, whatever the label. *)
Theorem server_route_risk_follows_label :
  forall (model id : string) (patientData : PatientData) (w : World)
         (data : Payload),
    In model Server.validModels ->
    remote w 0 {| req_url := Js.get Server.modelServiceMap model;
                  req_body := patientData;
                  req_timeout := None |} = Responded data ->
    (forall d, database w d = Saved id) ->
    exists b,
      fst (run (Server.predict model patientData) w)
      = Return {| Server.status := 200; Server.body := Server.Predicted b |} /\
      (Server.result b = "HIGH RISK: CKD Detected"
       <-> data_prediction data = Some "CKD") /\
      (Server.recommendation b
       = "High risk detected. Consult nephrologist immediately."
       <-> data_prediction data = Some "CKD") /\
      Server.risk_score b = Js.or_num (data_probability data) 0 * 100 /\
      (data_probability data = None -> Server.risk_score b == 0).
Proof.
  intros model id patientData w data Hvalid Hremote Hdb.
  assert (Hincl : Js.includes Server.validModels model = true)
    by now apply includes_spec.
  destruct (valid_model_has_service model Hvalid) as [url Hurl].
  rewrite Hurl in *.
  rewrite (server_predict_run model url patientData w Hincl Hurl).
  cbv zeta. rewrite Hremote, Hdb. eexists. split; [reflexivity |].
  cbn [Server.result Server.recommendation Server.risk_score].
  assert (Hlabel : String.eqb (Js.or_str (data_prediction data) "Unknown") "CKD" = true
                   <-> data_prediction data = Some "CKD").
  { destruct (data_prediction data) as [[| c s] |]; cbn [Js.or_str]; split;
      intros H; try discriminate.
    - apply String.eqb_eq in H. now rewrite H.
    - replace (String c s) with "CKD" by congruence. reflexivity. }
  assert (Hzero : data_probability data = None ->
                  Js.or_num (data_probability data) 0 * 100 == 0)
    by (intros ->; reflexivity).
  destruct (String.eqb (Js.or_str (data_prediction data) "Unknown") "CKD").
  - assert (Hckd : data_prediction data = Some "CKD") by now apply Hlabel.
    split; [split; auto |]. split; [split; auto |]. split; [reflexivity | exact Hzero].
  - assert (Hother : data_prediction data <> Some "CKD")
      by (intros H; apply Hlabel in H; discriminate).
    split; [split; [discriminate | contradiction] |].
    split; [split; [discriminate | contradiction] |].
    split; [reflexivity | exact Hzero].
Qed.

Lemma server_route_risk_follows_label_witness :
  exists b,
    fst (run (Server.predict "svm" Sample.neutral) MoreSamples.labelled_only)
    = Return {| Server.status := 200; Server.body := Server.Predicted b |} /\
    Server.result b = "HIGH RISK: CKD Detected" /\
    Server.risk_score b == 0.
Proof.
  assert (Hvalid : In "svm" Server.validModels) by (simpl; tauto).
  destruct (server_route_risk_follows_label "svm" "652f1c0a9d3e" Sample.neutral
              MoreSamples.labelled_only MoreSamples.ckd_without_probability
              Hvalid eq_refl (fun _ => eq_refl))
    as (b & Hrun & Hresult & _ & _ & Hzero).
  exists b. split; [exact Hrun |]. split.
  - now apply Hresult.
  - now apply Hzero.
Defined.

End ServerRouteProperties.

(* ================================================================== *)
(** ** The routes of the revision with a guarded save *)

Section RevRouteProperties.

(** What [handleModelPrediction] hands over, whichever way it went. *)
Lemma handleModelPrediction_returns (model : string) (patientData : PatientData)
    (w : World) :
  exists p t,
    run (ServerRev.handleModelPrediction model patientData) w
    = (Return {| ServerRev.predictionResult := p;
                 ServerRev.modelAccuracy :=
                   Js.or_num (Js.get ServerRev.modelPerformance model) (90 # 100);
                 ServerRev.model := model |}, t) /\
    saves t = [] /\
    (List.length (calls t) <= 1)%nat /\
    ((forall n r, responds w n r = false) ->
     p = ServerRev.mockPrediction patientData model) /\
    (forall url data,
        Js.get ServerRev.modelServiceMap model = Some url ->
        remote w 0 {| req_url := Some url; req_body := patientData;
                      req_timeout := Some 10000%Z |} = Responded data ->
        p = {| ServerRev.prediction :=
                 Js.or_str (data_prediction data) "Unknown";
               ServerRev.probability :=
                 Js.or_num (data_probability data) (1 # 2);
               ServerRev.confidence :=
                 shown_number (Js.or_num (data_confidence data) 0) |}).
Proof.
  rewrite handleModelPrediction_run. cbv zeta.
  destruct (Js.get ServerRev.modelServiceMap model) as [url |].
  - destruct (remote w 0%nat _) as [data | kind msg] eqn:Eremote.
    + eexists. eexists. split; [reflexivity |].
      split; [reflexivity |]. split; [simpl; lia |]. split.
      * intros Hdown.
        specialize (Hdown 0%nat {| req_url := Some url; req_body := patientData;
                                   req_timeout := Some 10000%Z |}).
        unfold responds in Hdown. rewrite Eremote in Hdown. discriminate.
      * intros url' data' Hurl Hok. injection Hurl as <-.
        rewrite Eremote in Hok. injection Hok as <-. reflexivity.
    + eexists. eexists. split; [reflexivity |].
      split; [reflexivity |]. split; [simpl; lia |]. split.
      * reflexivity.
      * intros url' data' Hurl Hok. injection Hurl as <-.
        rewrite Eremote in Hok. discriminate.
  - eexists. eexists. split; [reflexivity |].
    split; [reflexivity |]. split; [simpl; lia |]. split.
    + reflexivity.
    + intros url' data' Hurl. discriminate.
Qed.

(** What [sendPredictionResponse] does with it. *)
Lemma sendPredictionResponse_effects (h : ServerRev.Handled) (w : World)
    (t : Trace) :
  let p := ServerRev.predictionResult h in
  let record :=
    {| doc_patient     := None;
       doc_predictedBy := Js.toUpperCase (ServerRev.model h);
       doc_prediction  := ServerRev.prediction p;
       doc_probability := ServerRev.probability p;
       doc_accuracy    := ServerRev.modelAccuracy h;
       doc_riskScore   := Some (ServerRev.probability p * 100) |} in
  exists b,
    fst (ServerRev.sendPredictionResponse h w t)
    = Return {| ServerRev.status := 200; ServerRev.body := ServerRev.Predicted b |} /\
    calls (snd (ServerRev.sendPredictionResponse h w t)) = calls t /\
    saves (snd (ServerRev.sendPredictionResponse h w t)) = saves t ++ [record] /\
    ServerRev.risk_score b = ServerRev.probability p * 100 /\
    ServerRev.riskLevel (ServerRev.result b)
    = (if Js.gt (ServerRev.probability p) (1 # 2)
       then "HIGH RISK: CKD Detected" else "LOW RISK: No CKD") /\
    ServerRev.body_model b = ServerRev.model h.
Proof.
  cbv zeta.
  unfold ServerRev.sendPredictionResponse, try_catch, bind, record_save,
    console_error, emit, ret. cbv zeta.
  destruct (database w _) as [id | msg]; cbn [fst snd].
  - eexists. split; [reflexivity |].
    rewrite calls_snoc_save, saves_snoc_save. repeat split.
  - eexists. split; [reflexivity |].
    rewrite calls_snoc_log, calls_snoc_save, saves_snoc_log, saves_snoc_save.
    repeat split.
Qed.

Lemma fixed_route_run (name failure : string) (patientData : PatientData)
    (w : World) (h : ServerRev.Handled) (t : Trace) :
  run (ServerRev.handleModelPrediction name patientData) w = (Return h, t) ->
  run (ServerRev.fixed_route name failure patientData) w
  = ServerRev.sendPredictionResponse h w t.
Proof.
  intros Hh. unfold run in *.
  unfold ServerRev.fixed_route, try_catch, bind. rewrite Hh.
  destruct (sendPredictionResponse_always_answers h w t) as (b & t' & Hsend & _).
  now rewrite Hsend.
Qed.

Lemma generic_route_run (toLowerCase : string -> string) (param : string)
    (patientData : PatientData) (w : World) (h : ServerRev.Handled) (t : Trace) :
  Js.includes ServerRev.validModels (toLowerCase param) = true ->
  run (ServerRev.handleModelPrediction (toLowerCase param) patientData) w
  = (Return h, t) ->
  run (ServerRev.predict toLowerCase param patientData) w
  = ServerRev.sendPredictionResponse h w t.
Proof.
  intros Hincl Hh. unfold run in *.
  unfold ServerRev.predict, try_catch. cbv zeta. rewrite Hincl. cbn [negb].
  unfold bind. rewrite Hh.
  destruct (sendPredictionResponse_always_answers h w t) as (b & t' & Hsend & _).
  now rewrite Hsend.
Qed.

(** X13.  The routes of this revision never answer with a server error:
    whatever the remote service and the database do, a fixed route answers
    200 with a prediction, and the generic route answers 200 with a
    prediction or 400 for an identifier it does not know.  The 500 of
    their [catch] blocks is never sent. *)
Theorem rev_routes_never_fail :
  forall (toLowerCase : string -> string) (name failure : string)
         (patientData : PatientData) (w : World),
    (exists b,
        fst (run (ServerRev.fixed_route name failure patientData) w)
        = Return {| ServerRev.status := 200;
                    ServerRev.body := ServerRev.Predicted b |}) /\
    ((exists b,
         fst (run (ServerRev.predict toLowerCase name patientData) w)
         = Return {| ServerRev.status := 200;
                     ServerRev.body := ServerRev.Predicted b |}) \/
     fst (run (ServerRev.predict toLowerCase name patientData) w)
     = Return {| ServerRev.status := 400;
                 ServerRev.body :=
                   ServerRev.InvalidModel ServerRev.invalid_model_message
                                          (toLowerCase name) |}).
Proof.
  intros toLowerCase name failure patientData w. split.
  - destruct (handleModelPrediction_returns name patientData w)
      as (p & t & Hh & _).
    rewrite (fixed_route_run name failure patientData w _ t Hh).
    destruct (sendPredictionResponse_effects
                {| ServerRev.predictionResult := p;
                   ServerRev.modelAccuracy :=
                     Js.or_num (Js.get ServerRev.modelPerformance name) (90 # 100);
                   ServerRev.model := name |} w t) as (b & Hb & _).
    exists b. exact Hb.
  - destruct (Js.includes ServerRev.validModels (toLowerCase name)) eqn:Hincl.
    + left.
      destruct (handleModelPrediction_returns (toLowerCase name) patientData w)
        as (p & t & Hh & _).
      rewrite (generic_route_run toLowerCase name patientData w _ t Hincl Hh).
      destruct (sendPredictionResponse_effects
                  {| ServerRev.predictionResult := p;
                     ServerRev.modelAccuracy :=
                       Js.or_num (Js.get ServerRev.modelPerformance (toLowerCase name))
                                 (90 # 100);
                     ServerRev.model := toLowerCase name |} w t) as (b & Hb & _).
      exists b. exact Hb.
    + right. unfold run, ServerRev.predict, try_catch. cbv zeta.
      rewrite Hincl. reflexivity.
Qed.

(** X14.  A request to a fixed route makes at most one remote call and
    attempts exactly one write.  The document built for that write names
    the model in upper case and carries the prediction that is answered:
    its probability is the one the risk score of the answer is computed
    from, and its label and probability are those of the remote answer
    (with the defaults ["Unknown"] and 0.5) when the service responds, and
    those of the local estimate when every call is rejected.  It carries
    none of the patient's measurements: it is built from the prediction
    result, not from the request body. *)
Theorem rev_route_record_has_no_measurements :
  forall (name failure : string) (patientData : PatientData) (w : World),
    let outcome := run (ServerRev.fixed_route name failure patientData) w in
    (List.length (calls (snd outcome)) <= 1)%nat /\
    exists record b,
      saves (snd outcome) = [record] /\
      fst outcome
      = Return {| ServerRev.status := 200; ServerRev.body := ServerRev.Predicted b |} /\
      doc_patient record = None /\
      doc_predictedBy record = Js.toUpperCase name /\
      ServerRev.risk_score b = doc_probability record * 100 /\
      (forall url data,
          Js.get ServerRev.modelServiceMap name = Some url ->
          remote w 0 {| req_url := Some url; req_body := patientData;
                        req_timeout := Some 10000%Z |} = Responded data ->
          doc_prediction record = Js.or_str (data_prediction data) "Unknown" /\
          doc_probability record = Js.or_num (data_probability data) (1 # 2)) /\
      ((forall n r, responds w n r = false) ->
       doc_prediction record
       = ServerRev.prediction (ServerRev.mockPrediction patientData name) /\
       doc_probability record = ServerRev.finalProbability patientData name).
Proof.
  intros name failure patientData w outcome. subst outcome.
  destruct (handleModelPrediction_returns name patientData w)
    as (p & t & Hh & Hsaves & Hcalls & Hlocal & Hremote).
  rewrite (fixed_route_run name failure patientData w _ t Hh).
  destruct (sendPredictionResponse_effects
              {| ServerRev.predictionResult := p;
                 ServerRev.modelAccuracy :=
                   Js.or_num (Js.get ServerRev.modelPerformance name) (90 # 100);
                 ServerRev.model := name |} w t)
    as (b & Hb & Hcalls' & Hsaves' & Hscore & _).
  cbv zeta in Hsaves'. rewrite Hcalls', Hsaves', Hsaves.
  cbn [ServerRev.predictionResult ServerRev.model ServerRev.modelAccuracy app]
    in Hscore |- *.
  split; [exact Hcalls |].
  eexists. exists b. split; [reflexivity |]. split; [exact Hb |].
  cbn [doc_patient doc_predictedBy doc_prediction doc_probability].
  split; [reflexivity |]. split; [reflexivity |]. split; [exact Hscore |].
  split.
  - intros url data Hurl Hok. rewrite (Hremote url data Hurl Hok).
    split; reflexivity.
  - intros Hdown. rewrite (Hlocal Hdown). split; reflexivity.
Qed.

Lemma rev_route_record_has_no_measurements_witness :
  exists record b,
    saves (snd (run (ServerRev.fixed_route "xgboost" "XGBoost prediction failed"
                       Sample.high_risk) Sample.unlabelled))
    = [record] /\
    fst (run (ServerRev.fixed_route "xgboost" "XGBoost prediction failed"
                Sample.high_risk) Sample.unlabelled)
    = Return {| ServerRev.status := 200; ServerRev.body := ServerRev.Predicted b |} /\
    doc_patient record = None /\
    doc_predictedBy record = "XGBOOST" /\
    doc_prediction record = "Unknown" /\
    doc_probability record = 9 # 10 /\
    ServerRev.risk_score b = doc_probability record * 100.
Proof.
  destruct (rev_route_record_has_no_measurements "xgboost"
              "XGBoost prediction failed" Sample.high_risk Sample.unlabelled)
    as (_ & record & b & Hsaves & Hb & Hpatient & Hby & Hscore & Hremote & _).
  destruct (Hremote "https://xgboost-service-ddal.onrender.com/predict"
                    Sample.unlabelled_payload eq_refl eq_refl)
    as [Hlabel Hprob].
  exists record, b.
  split; [exact Hsaves |]. split; [exact Hb |]. split; [exact Hpatient |].
  split; [exact Hby |]. split; [exact Hlabel |]. split; [exact Hprob |].
  exact Hscore.
Defined.

(** X15.  When the remote call of a fixed route is rejected, the answer is
    the local estimate: the risk score is 100 times [finalProbability], it
    lies between 5 and 95, and the risk level shown agrees with the label
    written to the record (high risk exactly when the label is ["CKD"]). *)
Theorem rev_route_local_estimate :
  forall (name failure : string) (patientData : PatientData) (w : World),
    (forall n r, responds w n r = false) ->
    exists b record,
      fst (run (ServerRev.fixed_route name failure patientData) w)
      = Return {| ServerRev.status := 200; ServerRev.body := ServerRev.Predicted b |} /\
      saves (snd (run (ServerRev.fixed_route name failure patientData) w))
      = [record] /\
      ServerRev.risk_score b = ServerRev.finalProbability patientData name * 100 /\
      5 <= ServerRev.risk_score b /\ ServerRev.risk_score b <= 95 /\
      (ServerRev.riskLevel (ServerRev.result b) = "HIGH RISK: CKD Detected"
       <-> doc_prediction record = "CKD").
Proof.
  intros name failure patientData w Hdown.
  destruct (handleModelPrediction_returns name patientData w)
    as (p & t & Hh & Hsaves & _ & Hlocal & _).
  specialize (Hlocal Hdown). subst p.
  rewrite (fixed_route_run name failure patientData w _ t Hh).
  destruct (sendPredictionResponse_effects
              {| ServerRev.predictionResult :=
                   ServerRev.mockPrediction patientData name;
                 ServerRev.modelAccuracy :=
                   Js.or_num (Js.get ServerRev.modelPerformance name) (90 # 100);
                 ServerRev.model := name |} w t)
    as (b & Hb & _ & Hsaves' & Hscore & Hlevel & _).
  cbv zeta in Hsaves'. rewrite Hsaves in Hsaves'.
  cbn [ServerRev.predictionResult] in Hscore, Hlevel.
  change (ServerRev.probability (ServerRev.mockPrediction patientData name))
    with (ServerRev.finalProbability patientData name) in Hscore, Hlevel.
  destruct (estimate_bounds patientData name) as (_ & Hlow & Hhigh).
  exists b. eexists. split; [exact Hb |]. split; [exact Hsaves' |].
  split; [exact Hscore |]. rewrite Hscore, Hlevel.
  split; [lra |]. split; [lra |].
  cbn [doc_prediction ServerRev.predictionResult ServerRev.mockPrediction
       ServerRev.prediction].
  destruct (Js.gt (ServerRev.finalProbability patientData name) (1 # 2));
    split; intros H; try reflexivity; discriminate.
Qed.

Lemma rev_route_local_estimate_witness :
  (forall n r, responds Sample.all_slow n r = false) /\
  exists b,
    fst (run (ServerRev.fixed_route "svm" "SVM prediction failed" Sample.neutral)
             Sample.all_slow)
    = Return {| ServerRev.status := 200; ServerRev.body := ServerRev.Predicted b |} /\
    5 <= ServerRev.risk_score b /\ ServerRev.risk_score b <= 95.
Proof.
  split; [intros n r; reflexivity |].
  destruct (rev_route_local_estimate "svm" "SVM prediction failed" Sample.neutral
              Sample.all_slow (fun _ _ => eq_refl))
    as (b & record & Hb & _ & _ & Hlow & Hhigh & _).
  exists b. repeat split; assumption.
Defined.

(** X16.  On the remote path of this revision the risk level follows the
    probability, not the label: when the service answers without a
    probability (or with 0) the probability is taken as 0.5, the risk score
    is 50 and the answer says ["LOW RISK: No CKD"], whatever label the
    answer carries; that label is what the record stores. *)
Theorem rev_route_risk_follows_probability :
  forall (name failure url : string) (patientData : PatientData) (w : World)
         (data : Payload),
    Js.get ServerRev.modelServiceMap name = Some url ->
    remote w 0 {| req_url := Some url; req_body := patientData;
                  req_timeout := Some 10000%Z |} = Responded data ->
    (data_probability data = None \/
     exists q, data_probability data = Some q /\ q == 0) ->
    exists b record,
      fst (run (ServerRev.fixed_route name failure patientData) w)
      = Return {| ServerRev.status := 200; ServerRev.body := ServerRev.Predicted b |} /\
      saves (snd (run (ServerRev.fixed_route name failure patientData) w))
      = [record] /\
      ServerRev.risk_score b == 50 /\
      ServerRev.riskLevel (ServerRev.result b) = "LOW RISK: No CKD" /\
      doc_prediction record = Js.or_str (data_prediction data) "Unknown".
Proof.
  intros name failure url patientData w data Hurl Hok Hmissing.
  assert (Hhalf : Js.or_num (data_probability data) (1 # 2) = 1 # 2).
  { destruct Hmissing as [-> | (q & -> & Hq)]; [reflexivity |].
    apply Qeq_bool_iff in Hq. unfold Js.or_num. now rewrite Hq. }
  destruct (handleModelPrediction_returns name patientData w)
    as (p & t & Hh & Hsaves & _ & _ & Hremote).
  specialize (Hremote url data Hurl Hok). subst p.
  rewrite (fixed_route_run name failure patientData w _ t Hh).
  match goal with
  | |- context [ServerRev.sendPredictionResponse ?h w t] =>
      destruct (sendPredictionResponse_effects h w t)
        as (b & Hb & _ & Hsaves' & Hscore & Hlevel & _)
  end.
  cbv zeta in Hsaves'. rewrite Hsaves in Hsaves'.
  cbn [ServerRev.predictionResult ServerRev.probability] in Hscore, Hlevel.
  rewrite Hhalf in Hscore, Hlevel.
  exists b. eexists. split; [exact Hb |]. split; [exact Hsaves' |].
  rewrite Hscore, Hlevel. repeat split.
Qed.

Lemma rev_route_risk_follows_probability_witness :
  exists b record,
    fst (run (ServerRev.fixed_route "xgboost" "XGBoost prediction failed"
                Sample.high_risk) MoreSamples.labelled_only)
    = Return {| ServerRev.status := 200; ServerRev.body := ServerRev.Predicted b |} /\
    saves (snd (run (ServerRev.fixed_route "xgboost" "XGBoost prediction failed"
                       Sample.high_risk) MoreSamples.labelled_only))
    = [record] /\
    ServerRev.riskLevel (ServerRev.result b) = "LOW RISK: No CKD" /\
    doc_prediction record = "CKD".
Proof.
  destruct (rev_route_risk_follows_probability "xgboost" "XGBoost prediction failed"
              "https://xgboost-service-ddal.onrender.com/predict"
              Sample.high_risk MoreSamples.labelled_only
              MoreSamples.ckd_without_probability eq_refl eq_refl
              (or_introl eq_refl))
    as (b & record & Hb & Hsaves & _ & Hlevel & Hlabel).
  exists b, record. repeat split; assumption.
Defined.

End RevRouteProperties.

(* ================================================================== *)
(** ** The local estimates as functions of the record *)

Section EstimateProperties.

Ltac split_rules :=
  repeat match goal with
         | |- context [if ?b then _ else _] => destruct b
         end.

Ltac pick_member := repeat (first [left; reflexivity | right]).

(** The score is a sum of the eight weights: a multiple of 5 up to 100. *)
Lemma accumulatedRisk_values (patientData : PatientData) :
  In (ServerRev.accumulatedRisk patientData)
     [0; 5; 10; 15; 20; 25; 30; 35; 40; 45; 50;
      55; 60; 65; 70; 75; 80; 85; 90; 95; 100].
Proof.
  unfold ServerRev.accumulatedRisk. cbv zeta.
  generalize (Js.gt (Js.or_num (age patientData) 50) 60)
             (Js.gt (Js.or_num (bp patientData) 120) 140)
             (Js.gt (Js.or_num (sc patientData) 1) (13 # 10))
             (Js.gt (Js.or_num (bu patientData) 30) 40)
             (Js.gt (Js.or_num (bgr patientData) 100) 126)
             (Js.lt (Js.or_num (sg patientData) (1020 # 1000)) (1010 # 1000))
             (Js.gt (Js.or_num (al patientData) 0) 2)
             (Js.gt (Js.or_num (su patientData) 0) 1).
  intros [] [] [] [] [] [] [] []; vm_compute; pick_member.
Qed.

(** X17.  A measurement of 0 is read as a missing one: filling every
    absent measurement of a record with 0 changes neither the score nor
    the prediction of the estimate, for any model.  (So a specific gravity
    of 0 is replaced by 1.020 and does not count as low.) *)
Theorem zero_is_read_as_missing :
  forall (patientData : PatientData) (model : string),
    ServerRev.accumulatedRisk (zero_filled patientData)
    = ServerRev.accumulatedRisk patientData /\
    ServerRev.mockPrediction (zero_filled patientData) model
    = ServerRev.mockPrediction patientData model /\
    ServerV2.mockPrediction (zero_filled patientData) model
    = ServerV2.mockPrediction patientData model.
Proof.
  intros patientData model.
  assert (Hfill : forall (x : option Q) (default : Q),
             Js.or_num (match x with Some q => Some q | None => Some 0 end) default
             = Js.or_num x default)
    by (intros [q |] default; reflexivity).
  assert (Hscore : ServerRev.accumulatedRisk (zero_filled patientData)
                   = ServerRev.accumulatedRisk patientData).
  { unfold ServerRev.accumulatedRisk, zero_filled. cbv beta zeta.
    cbn [age bp sc bu bgr sg al su]. rewrite !Hfill. reflexivity. }
  assert (Hcount : ServerV2.riskFactors (zero_filled patientData)
                   = ServerV2.riskFactors patientData).
  { unfold ServerV2.riskFactors, zero_filled. cbv beta zeta.
    cbn [age bp sc bu bgr]. rewrite !Hfill. reflexivity. }
  split; [exact Hscore |]. split.
  - unfold ServerRev.mockPrediction, ServerRev.finalProbability,
      ServerRev.offsetProbability, ServerRev.cappedRisk.
    now rewrite Hscore.
  - unfold ServerV2.mockPrediction, ServerV2.finalProbability.
    now rewrite Hcount.
Qed.

(** X18.  The label of the estimate is decided by the score alone except
    at 50: below 50 every model says ["No CKD"], above 50 every model says
    ["CKD"].  At exactly 50 the per-model offset decides: xgboost says
    ["CKD"], svm says ["No CKD"]. *)
Theorem estimate_label_by_score :
  forall (patientData : PatientData) (model : string),
    (ServerRev.accumulatedRisk patientData < 50 ->
     ServerRev.prediction (ServerRev.mockPrediction patientData model) = "No CKD") /\
    (50 < ServerRev.accumulatedRisk patientData ->
     ServerRev.prediction (ServerRev.mockPrediction patientData model) = "CKD") /\
    ServerRev.accumulatedRisk MoreSamples.borderline = 50 /\
    ServerRev.prediction (ServerRev.mockPrediction MoreSamples.borderline "xgboost")
    = "CKD" /\
    ServerRev.prediction (ServerRev.mockPrediction MoreSamples.borderline "svm")
    = "No CKD".
Proof.
  intros patientData model.
  assert (Hlabel : forall s offset : Q,
             In s [0; 5; 10; 15; 20; 25; 30; 35; 40; 45; 50;
                   55; 60; 65; 70; 75; 80; 85; 90; 95; 100] ->
             offset = 2 # 100 \/ offset = 1 # 100 \/ offset = 15 # 1000 \/
             offset = 0 \/ offset = - (1 # 100) ->
             let label :=
               if Js.gt (Js.max (5 # 100)
                           (Js.min (95 # 100) (Js.min s 95 / 100 + offset)))
                        (1 # 2)
               then "CKD" else "No CKD" in
             (s < 50 -> label = "No CKD") /\ (50 < s -> label = "CKD")).
  { intros s offset Hs Hoffset. cbv zeta.
    destruct Hoffset as [-> | [-> | [-> | [-> | ->]]]];
      simpl in Hs;
      repeat (destruct Hs as [<- | Hs];
              [split; intros Hlt;
               first [reflexivity | vm_compute in Hlt; discriminate] |]);
      contradiction. }
  destruct (Hlabel (ServerRev.accumulatedRisk patientData)
                   (Js.or_num (Js.get ServerRev.modelAdjustments model) 0)
                   (accumulatedRisk_values patientData)
                   (adjustment_cases model)) as [Hbelow Habove].
  split; [exact Hbelow |]. split; [exact Habove |]. repeat split.
Qed.

Lemma estimate_label_by_score_witness :
  ServerRev.accumulatedRisk Sample.neutral < 50 /\
  50 < ServerRev.accumulatedRisk Sample.high_risk /\
  ServerRev.prediction (ServerRev.mockPrediction Sample.neutral "xgboost") = "No CKD" /\
  ServerRev.prediction (ServerRev.mockPrediction Sample.high_risk "logistic") = "CKD".
Proof.
  assert (Hlow : ServerRev.accumulatedRisk Sample.neutral < 50) by reflexivity.
  assert (Hhigh : 50 < ServerRev.accumulatedRisk Sample.high_risk) by reflexivity.
  split; [exact Hlow |]. split; [exact Hhigh |].
  destruct (estimate_label_by_score Sample.neutral "xgboost") as (Hbelow & _).
  destruct (estimate_label_by_score Sample.high_risk "logistic") as (_ & Habove & _).
  split; [exact (Hbelow Hlow) | exact (Habove Hhigh)].
Defined.

Lemma v2_adjustment_cases (model : string) :
  let offset := Js.or_num (Js.get ServerV2.modelAdjustments model) 0 in
  offset = 2 # 100 \/ offset = 1 # 100 \/ offset = 15 # 1000 \/
  offset = 0 \/ offset = - (1 # 100).
Proof.
  cbv zeta. unfold ServerV2.modelAdjustments. cbn [Js.get].
  destruct (String.eqb "xgboost" model); [left; reflexivity |].
  destruct (String.eqb "randomforest" model); [right; left; reflexivity |].
  destruct (String.eqb "neuralnetwork" model);
    [right; right; left; reflexivity |].
  destruct (String.eqb "svm" model);
    [right; right; right; left; reflexivity |].
  destruct (String.eqb "logistic" model);
    [right; right; right; right; reflexivity |].
  right; right; right; left; reflexivity.
Qed.

Lemma riskFactors_values (patientData : PatientData) :
  In (ServerV2.riskFactors patientData) [0; 1; 2; 3; 4; 5].
Proof.
  unfold ServerV2.riskFactors. cbv zeta.
  generalize (Js.gt (Js.or_num (age patientData) 50) 60)
             (Js.gt (Js.or_num (bp patientData) 120) 140)
             (Js.gt (Js.or_num (sc patientData) 1) (13 # 10))
             (Js.gt (Js.or_num (bu patientData) 30) 40)
             (Js.gt (Js.or_num (bgr patientData) 100) 126).
  intros [] [] [] [] []; vm_compute; pick_member.
Qed.

(** X19.  In the estimate that counts thresholds, the label does not
    depend on the model: it is ["CKD"] exactly when at least two of the
    five thresholds are crossed.  The probability stays strictly between
    0.25 and 1, but not under the cap of 0.95: the offset is added after
    [Math.min], so with all five thresholds crossed xgboost is given more
    than 0.95. *)
Theorem v2_estimate_label_by_count :
  forall (patientData : PatientData) (model : string),
    (ServerV2.prediction (ServerV2.mockPrediction patientData model) = "CKD"
     <-> 2 <= ServerV2.riskFactors patientData) /\
    1 # 4 < ServerV2.probability (ServerV2.mockPrediction patientData model) /\
    ServerV2.probability (ServerV2.mockPrediction patientData model) < 1 /\
    (5 <= ServerV2.riskFactors patientData ->
     95 # 100 < ServerV2.probability (ServerV2.mockPrediction patientData "xgboost")).
Proof.
  intros patientData model.
  assert (Hcases : forall n offset : Q,
             In n [0; 1; 2; 3; 4; 5] ->
             offset = 2 # 100 \/ offset = 1 # 100 \/ offset = 15 # 1000 \/
             offset = 0 \/ offset = - (1 # 100) ->
             let p := Js.min ((3 # 10) + n * (15 # 100)) (95 # 100) + offset in
             ((if Js.gt p (1 # 2) then "CKD" else "No CKD") = "CKD" <-> 2 <= n) /\
             1 # 4 < p /\ p < 1).
  { intros n offset Hn Hoffset. cbv zeta.
    destruct Hoffset as [-> | [-> | [-> | [-> | ->]]]];
      simpl in Hn;
      repeat (destruct Hn as [<- | Hn];
              [split;
               [split; intros H;
                first [reflexivity
                      | discriminate
                      | vm_compute in H; discriminate
                      | exfalso; apply H; reflexivity ]
               | split; reflexivity] |]);
      contradiction. }
  assert (Hcap : forall n : Q,
             In n [0; 1; 2; 3; 4; 5] ->
             5 <= n ->
             95 # 100 < Js.min ((3 # 10) + n * (15 # 100)) (95 # 100) + (2 # 100)).
  { intros n Hn Hfive. simpl in Hn.
    repeat (destruct Hn as [<- | Hn];
            [first [reflexivity | exfalso; apply Hfive; reflexivity] |]).
    contradiction. }
  destruct (Hcases (ServerV2.riskFactors patientData)
                   (Js.or_num (Js.get ServerV2.modelAdjustments model) 0)
                   (riskFactors_values patientData)
                   (v2_adjustment_cases model)) as (Hlabel & Hlow & Hhigh).
  split; [exact Hlabel |]. split; [exact Hlow |]. split; [exact Hhigh |].
  intros Hfive.
  exact (Hcap _ (riskFactors_values patientData) Hfive).
Qed.

Lemma v2_estimate_label_by_count_witness :
  5 <= ServerV2.riskFactors Sample.high_risk /\
  95 # 100 < ServerV2.probability (ServerV2.mockPrediction Sample.high_risk "xgboost") /\
  ServerV2.prediction (ServerV2.mockPrediction Sample.high_risk "logistic") = "CKD".
Proof.
  assert (Hfive : 5 <= ServerV2.riskFactors Sample.high_risk) by discriminate.
  split; [exact Hfive |].
  destruct (v2_estimate_label_by_count Sample.high_risk "logistic")
    as (Hlabel & _ & _ & Hcap).
  split; [exact (Hcap Hfive) |].
  apply Hlabel. discriminate.
Defined.

End EstimateProperties.

(* ================================================================== *)
(** ** The revision with one handler per request *)

Section V2Properties.

Lemma v2_valid_model_has_service (model : string) :
  In model ServerV2.validModels ->
  exists url, Js.get ServerV2.modelServiceMap model = Some url.
Proof.
  intros H. simpl in H.
  repeat (destruct H as [<- | H]; [eexists; reflexivity |]).
  contradiction.
Qed.

(** A request for a valid model: one call, one write, and an answer that
    depends on the write alone. *)
Lemma v2_handle_run (model url : string) (patientData : PatientData) (w : World) :
  Js.includes ServerV2.validModels model = true ->
  Js.get ServerV2.modelServiceMap model = Some url ->
  let r := {| req_url := Some url; req_body := patientData;
              req_timeout := Some 10000%Z |} in
  let p :=
    match remote w 0 r with
    | Responded data =>
        {| ServerV2.prediction := Js.or_str (data_prediction data) "Unknown";
           ServerV2.probability := Js.or_num (data_probability data) (1 # 2);
           ServerV2.confidence :=
             shown_number (Js.or_num (data_confidence data) 0) |}
    | Rejected _ _ => ServerV2.mockPrediction patientData model
    end in
  let record :=
    {| doc_patient     := Some patientData;
       doc_predictedBy := Js.toUpperCase model;
       doc_prediction  := ServerV2.prediction p;
       doc_probability := ServerV2.probability p;
       doc_accuracy    :=
         Js.or_num (Js.get ServerV2.modelPerformance model) (90 # 100);
       doc_riskScore   := Some (ServerV2.probability p * 100) |} in
  calls (snd (run (ServerV2.handleModelPrediction model patientData) w)) = [r] /\
  saves (snd (run (ServerV2.handleModelPrediction model patientData) w)) = [record] /\
  match database w record with
  | Saved id =>
      exists b,
        fst (run (ServerV2.handleModelPrediction model patientData) w)
        = Return {| ServerV2.status := 200; ServerV2.body := ServerV2.Predicted b |} /\
        ServerV2.risk_score b = ServerV2.probability p * 100 /\
        ServerV2.patientRecordId b = id
  | SaveFailed msg =>
      fst (run (ServerV2.handleModelPrediction model patientData) w)
      = Return {| ServerV2.status := 500;
                  ServerV2.body :=
                    ServerV2.PredictionFailed "Prediction failed" msg model
                      "Try using a different model or check your input data" |}
  end.
Proof.
  intros Hincl Hurl r p record. subst p record.
  unfold run, ServerV2.handleModelPrediction, ServerV2.generateMockPrediction,
    try_catch, bind, console_log, console_error, emit.
  rewrite Hincl. cbn [negb]. rewrite Hurl.
  unfold axios_post, record_save, ret.
  cbn [app calls List.length]. fold r.
  destruct (remote w 0%nat r) as [data | kind msg]; cbv beta iota zeta;
    cbn [ServerV2.prediction ServerV2.probability ServerV2.confidence];
    destruct (database w _) as [id | dbmsg];
    cbn [fst snd app calls saves];
    (split; [reflexivity |]); (split; [reflexivity |]);
    first [reflexivity | eexists; repeat split].
Qed.

(** X20.  In this revision a rejected remote call never produces an error
    and a rejected write always does.  For a valid model there is one
    remote call (with the 10000 ms time-out) and one record, which carries
    the patient's measurements; the answer is 200 whenever the write
    succeeds, also when the remote call was rejected and the estimate is
    local, and 500 with the message of the database whenever the write
    fails.  For any other identifier the answer is 400 and nothing is
    called or written. *)
Theorem v2_route_outcomes :
  forall (model : string) (patientData : PatientData) (w : World),
    let outcome := run (ServerV2.handleModelPrediction model patientData) w in
    (In model ServerV2.validModels ->
     (exists r, calls (snd outcome) = [r] /\ req_timeout r = Some 10000%Z) /\
     (exists record,
         saves (snd outcome) = [record] /\ doc_patient record = Some patientData) /\
     (forall id, (forall d, database w d = Saved id) ->
                 exists b,
                   fst outcome
                   = Return {| ServerV2.status := 200;
                               ServerV2.body := ServerV2.Predicted b |} /\
                   ServerV2.patientRecordId b = id) /\
     (forall msg, (forall d, database w d = SaveFailed msg) ->
                  fst outcome
                  = Return {| ServerV2.status := 500;
                              ServerV2.body :=
                                ServerV2.PredictionFailed "Prediction failed" msg model
                                  "Try using a different model or check your input data" |})) /\
    (~ In model ServerV2.validModels ->
     fst outcome
     = Return {| ServerV2.status := 400;
                 ServerV2.body :=
                   ServerV2.InvalidModel ServerV2.invalid_model_message model |} /\
     calls (snd outcome) = [] /\ saves (snd outcome) = []).
Proof.
  intros model patientData w outcome. subst outcome. split.
  - intros Hvalid.
    assert (Hincl : Js.includes ServerV2.validModels model = true)
      by now apply includes_spec.
    destruct (v2_valid_model_has_service model Hvalid) as [url Hurl].
    destruct (v2_handle_run model url patientData w Hincl Hurl)
      as (Hcalls & Hsaves & Hanswer).
    split; [eexists; split; [exact Hcalls | reflexivity] |].
    split; [eexists; split; [exact Hsaves | reflexivity] |].
    split.
    + intros id Hdb. rewrite Hdb in Hanswer.
      destruct Hanswer as (b & Hb & _ & Hid). exists b. now split.
    + intros msg Hdb. now rewrite Hdb in Hanswer.
  - intros Hunknown.
    unfold run, ServerV2.handleModelPrediction, try_catch, bind, console_log, emit.
    rewrite (includes_false _ _ Hunknown). cbn [negb ret fst snd app calls saves].
    repeat split.
Qed.

Lemma v2_route_outcomes_witness :
  In "svm" ServerV2.validModels /\
  (exists b,
      fst (run (ServerV2.handleModelPrediction "svm" Sample.high_risk) Sample.all_down)
      = Return {| ServerV2.status := 200; ServerV2.body := ServerV2.Predicted b |} /\
      ServerV2.patientRecordId b = "652f1c0a9d3e") /\
  fst (run (ServerV2.handleModelPrediction "svm" Sample.high_risk)
           MoreSamples.all_down_db_down)
  = Return {| ServerV2.status := 500;
              ServerV2.body :=
                ServerV2.PredictionFailed "Prediction failed" "buffering timed out"
                  "svm" "Try using a different model or check your input data" |}.
Proof.
  assert (Hvalid : In "svm" ServerV2.validModels) by (simpl; tauto).
  split; [exact Hvalid |].
  destruct (v2_route_outcomes "svm" Sample.high_risk Sample.all_down)
    as [Hup _].
  destruct (v2_route_outcomes "svm" Sample.high_risk MoreSamples.all_down_db_down)
    as [Hdown _].
  destruct (Hup Hvalid) as (_ & _ & Hsaved & _).
  destruct (Hdown Hvalid) as (_ & _ & _ & Hfailed).
  split.
  - apply Hsaved. intros d. reflexivity.
  - apply Hfailed. intros d. reflexivity.
Defined.

End V2Properties.
